(** * Emergency consultation app: authorization and lifecycle contract

    A shallow embedding of the consultation workflow of the mobile client:

    - the [Database] row types of [lib/supabase.ts] and the tables of the
      SQL migration (profiles, doctors, consultations);
    - the row-level-security policies of the migration, one boolean
      function per policy expression, and the way PostgreSQL combines
      them for SELECT, INSERT and UPDATE statements;
    - the handlers of [app/(tabs)/index.tsx] and
      [app/(tabs)/consultations.tsx] that issue those statements, with the
      render-time guards that decide which action a card offers.

    Tables are lists of rows (a primary key is a constraint checked on
    write, not a structural property).  Identities are strings (uuid),
    instants are integers (timestamptz). *)

From Stdlib Require Import ZArith Ascii String.
From stdpp Require Import base decidable option numbers list relations sorting strings.

Local Open Scope string_scope.

(** ** Row types *)

Definition uuid := string.
Definition timestamptz := Z.
Bind Scope Z_scope with timestamptz.

Inductive UserType := patient | doctor.
Inductive Status := pending | assigned | in_progress | completed | cancelled.
Inductive Urgency := low | medium | high | critical.

#[global] Instance UserType_eq_dec : EqDecision UserType.
Proof. solve_decision. Defined.
#[global] Instance Status_eq_dec : EqDecision Status.
Proof. solve_decision. Defined.
#[global] Instance Urgency_eq_dec : EqDecision Urgency.
Proof. solve_decision. Defined.

Module Profile.
Record Row := {
  id : uuid;
  user_type : UserType;
  full_name : string;
  phone : option string;
  created_at : timestamptz;
  updated_at : timestamptz }.
End Profile.

Module Doctor.
Record Row := {
  id : uuid;
  specialization : string;
  license_number : string;
  is_available : bool;
  years_of_experience : Z;
  bio : option string;
  created_at : timestamptz;
  updated_at : timestamptz }.
End Doctor.

Module Consultation.
Record Row := {
  id : uuid;
  patient_id : uuid;
  doctor_id : option uuid;
  status : Status;
  urgency_level : Urgency;
  symptoms : string;
  notes : option string;
  scheduled_at : option timestamptz;
  started_at : option timestamptz;
  completed_at : option timestamptz;
  created_at : timestamptz;
  updated_at : timestamptz }.
End Consultation.

(** The [Insert] payload: a column that is absent takes the table's
    default. A nullable column that is present may hold null. *)
Module ConsultationInsert.
Record t := {
  id : option uuid;
  patient_id : uuid;
  doctor_id : option (option uuid);
  status : option Status;
  urgency_level : Urgency;
  symptoms : string;
  notes : option (option string);
  scheduled_at : option (option timestamptz);
  started_at : option (option timestamptz);
  completed_at : option (option timestamptz);
  created_at : option timestamptz;
  updated_at : option timestamptz }.
End ConsultationInsert.

(** The [Update] payload: every column is optional; an absent column is
    left as it is. *)
Module ConsultationUpdate.
Record t := {
  id : option uuid;
  patient_id : option uuid;
  doctor_id : option (option uuid);
  status : option Status;
  urgency_level : option Urgency;
  symptoms : option string;
  notes : option (option string);
  scheduled_at : option (option timestamptz);
  started_at : option (option timestamptz);
  completed_at : option (option timestamptz);
  created_at : option timestamptz;
  updated_at : option timestamptz }.

End ConsultationUpdate.

(** ** The store *)

Record Store := {
  profiles : list Profile.Row;
  doctors : list Doctor.Row;
  consultations : list Consultation.Row }.

Definition with_consultations (db : Store) (rows : list Consultation.Row) : Store :=
  {| profiles := profiles db; doctors := doctors db; consultations := rows |}.

Inductive PgError := rls_violation | unique_violation | foreign_key_violation.

(** ** Row-level-security policies on consultations *)

(** [SELECT id FROM doctors WHERE id = auth.uid()] *)
Definition own_doctor_ids (db : Store) (uid : uuid) : list uuid :=
  Doctor.id <$> filter (λ d, Doctor.id d = uid) (doctors db).

(** [x IN (subquery)]: null is never a member. *)
Definition sql_in (x : option uuid) (l : list uuid) : bool :=
  match x with
  | Some v => bool_decide (v ∈ l)
  | None => false
  end.

(** [EXISTS (subquery)] *)
Definition sql_exists {A} (l : list A) : bool :=
  match l with
  | [] => false
  | _ :: _ => true
  end.

(** "Patients can view own consultations", FOR SELECT, USING. *)
Definition patients_can_view_own_consultations
    (db : Store) (uid : uuid) (r : Consultation.Row) : bool :=
  bool_decide (Consultation.patient_id r = uid)
  || sql_in (Consultation.doctor_id r) (own_doctor_ids db uid).

(** [EXISTS (SELECT 1 FROM profiles WHERE id = auth.uid() AND user_type = t)]:
    the role the store resolves for the caller. *)
Definition has_role (db : Store) (uid : uuid) (t : UserType) : bool :=
  sql_exists (filter (λ p, Profile.id p = uid ∧ Profile.user_type p = t)
                     (profiles db)).

(** "Patients can create consultations", FOR INSERT, WITH CHECK. *)
Definition patients_can_create_consultations
    (db : Store) (uid : uuid) (r : Consultation.Row) : bool :=
  bool_decide (Consultation.patient_id r = uid) && has_role db uid patient.

(** "Patients can update own consultations", FOR UPDATE: USING and
    WITH CHECK are the same expression. *)
Definition patients_can_update_own_consultations
    (uid : uuid) (r : Consultation.Row) : bool :=
  bool_decide (Consultation.patient_id r = uid).

(** "Doctors can update assigned consultations", FOR UPDATE, USING. *)
Definition doctors_can_update_assigned_consultations_using
    (db : Store) (uid : uuid) (r : Consultation.Row) : bool :=
  sql_in (Consultation.doctor_id r) (own_doctor_ids db uid)
  || (bool_decide (Consultation.doctor_id r = None)
      && sql_exists (filter (λ d, Doctor.id d = uid) (doctors db))).

(** "Doctors can update assigned consultations", FOR UPDATE, WITH CHECK. *)
Definition doctors_can_update_assigned_consultations_check
    (db : Store) (uid : uuid) (r : Consultation.Row) : bool :=
  sql_in (Consultation.doctor_id r) (own_doctor_ids db uid).

(** Permissive policies of one command are combined with OR. *)
Definition select_using (db : Store) (uid : uuid) (r : Consultation.Row) : bool :=
  patients_can_view_own_consultations db uid r.

Definition update_using (db : Store) (uid : uuid) (r : Consultation.Row) : bool :=
  patients_can_update_own_consultations uid r
  || doctors_can_update_assigned_consultations_using db uid r.

Definition update_check (db : Store) (uid : uuid) (r : Consultation.Row) : bool :=
  patients_can_update_own_consultations uid r
  || doctors_can_update_assigned_consultations_check db uid r.

(** ** Statements *)

(** [SET] clause of an UPDATE. *)
Definition apply_update (u : ConsultationUpdate.t) (r : Consultation.Row)
    : Consultation.Row :=
  {| Consultation.id := default (Consultation.id r) (ConsultationUpdate.id u);
     Consultation.patient_id :=
       default (Consultation.patient_id r) (ConsultationUpdate.patient_id u);
     Consultation.doctor_id :=
       default (Consultation.doctor_id r) (ConsultationUpdate.doctor_id u);
     Consultation.status :=
       default (Consultation.status r) (ConsultationUpdate.status u);
     Consultation.urgency_level :=
       default (Consultation.urgency_level r) (ConsultationUpdate.urgency_level u);
     Consultation.symptoms :=
       default (Consultation.symptoms r) (ConsultationUpdate.symptoms u);
     Consultation.notes :=
       default (Consultation.notes r) (ConsultationUpdate.notes u);
     Consultation.scheduled_at :=
       default (Consultation.scheduled_at r) (ConsultationUpdate.scheduled_at u);
     Consultation.started_at :=
       default (Consultation.started_at r) (ConsultationUpdate.started_at u);
     Consultation.completed_at :=
       default (Consultation.completed_at r) (ConsultationUpdate.completed_at u);
     Consultation.created_at :=
       default (Consultation.created_at r) (ConsultationUpdate.created_at u);
     Consultation.updated_at :=
       default (Consultation.updated_at r) (ConsultationUpdate.updated_at u) |}.

(** Trigger function [update_updated_at_column], BEFORE UPDATE FOR EACH
    ROW: [NEW.updated_at = now()]. *)
Definition update_updated_at_column (now : timestamptz) (new : Consultation.Row)
    : Consultation.Row :=
  {| Consultation.id := Consultation.id new;
     Consultation.patient_id := Consultation.patient_id new;
     Consultation.doctor_id := Consultation.doctor_id new;
     Consultation.status := Consultation.status new;
     Consultation.urgency_level := Consultation.urgency_level new;
     Consultation.symptoms := Consultation.symptoms new;
     Consultation.notes := Consultation.notes new;
     Consultation.scheduled_at := Consultation.scheduled_at new;
     Consultation.started_at := Consultation.started_at new;
     Consultation.completed_at := Consultation.completed_at new;
     Consultation.created_at := Consultation.created_at new;
     Consultation.updated_at := now |}.

(** Foreign keys of a written row: [patient_id REFERENCES profiles(id)],
    [doctor_id REFERENCES doctors(id)]. A key is checked when its column
    is written with a new value. *)
Definition fk_patient (db : Store) (r : Consultation.Row) : bool :=
  bool_decide (Consultation.patient_id r ∈ Profile.id <$> profiles db).

Definition fk_doctor (db : Store) (r : Consultation.Row) : bool :=
  match Consultation.doctor_id r with
  | None => true
  | Some d => bool_decide (d ∈ Doctor.id <$> doctors db)
  end.

Definition fk_update (db : Store) (old new : Consultation.Row) : bool :=
  (bool_decide (Consultation.patient_id new = Consultation.patient_id old)
   || fk_patient db new)
  && (bool_decide (Consultation.doctor_id new = Consultation.doctor_id old)
      || fk_doctor db new).

(** The rows an [UPDATE consultations ... WHERE id = where_id] issued by
    [uid] acts on. The statement reads the column [id], so the SELECT
    policy applies to the existing row next to the UPDATE policies'
    USING expressions; a row that fails either is skipped without an
    error. *)
Definition update_target (db : Store) (uid where_id : uuid)
    (r : Consultation.Row) : bool :=
  bool_decide (Consultation.id r = where_id)
  && select_using db uid r
  && update_using db uid r.

(** The row an UPDATE writes in place of [r]: the [SET] clause, then the
    trigger. *)
Definition updated_row (now : timestamptz) (u : ConsultationUpdate.t)
    (r : Consultation.Row) : Consultation.Row :=
  update_updated_at_column now (apply_update u r).

Definition update_step (now : timestamptz) (uid : uuid) (u : ConsultationUpdate.t)
    (where_id : uuid) (db : Store) (r : Consultation.Row) : Consultation.Row :=
  if update_target db uid where_id r then updated_row now u r else r.

(** [UPDATE consultations SET u WHERE id = where_id] as [uid] at server
    time [now]. The new row of every target goes through the trigger and
    must pass the UPDATE policies' WITH CHECK (and remain visible to the
    SELECT policy); then the primary key and the foreign keys are checked.
    Any failure aborts the statement and leaves the table as it was. *)
Definition update_consultations (now : timestamptz) (uid : uuid)
    (u : ConsultationUpdate.t) (where_id : uuid) (db : Store)
    : Store * option PgError :=
  let targets := filter (λ r, update_target db uid where_id r) (consultations db) in
  let rows' := update_step now uid u where_id db <$> consultations db in
  if negb (forallb (λ r, update_check db uid (updated_row now u r)
                         && select_using db uid (updated_row now u r)) targets)
  then (db, Some rls_violation)
  else if negb (forallb (λ r, bool_decide (Consultation.id (updated_row now u r)
                                           = Consultation.id r)) targets)
               && negb (bool_decide (NoDup (Consultation.id <$> rows')))
  then (db, Some unique_violation)
  else if negb (forallb (λ r, fk_update db r (updated_row now u r)) targets)
  then (db, Some foreign_key_violation)
  else (with_consultations db rows', None).

(** Column defaults of an INSERT: [id DEFAULT gen_random_uuid()],
    [status DEFAULT 'pending'], timestamps [DEFAULT now()], the other
    nullable columns null. *)
Definition insert_row (new_id : uuid) (now : timestamptz)
    (i : ConsultationInsert.t) : Consultation.Row :=
  {| Consultation.id := default new_id (ConsultationInsert.id i);
     Consultation.patient_id := ConsultationInsert.patient_id i;
     Consultation.doctor_id := default None (ConsultationInsert.doctor_id i);
     Consultation.status := default pending (ConsultationInsert.status i);
     Consultation.urgency_level := ConsultationInsert.urgency_level i;
     Consultation.symptoms := ConsultationInsert.symptoms i;
     Consultation.notes := default None (ConsultationInsert.notes i);
     Consultation.scheduled_at := default None (ConsultationInsert.scheduled_at i);
     Consultation.started_at := default None (ConsultationInsert.started_at i);
     Consultation.completed_at := default None (ConsultationInsert.completed_at i);
     Consultation.created_at := default now (ConsultationInsert.created_at i);
     Consultation.updated_at := default now (ConsultationInsert.updated_at i) |}.

(** [INSERT INTO consultations] as [uid]; [new_id] is the value
    [gen_random_uuid()] yields and [now] the server time. Nothing is
    returned to the caller (no RETURNING clause), so only the INSERT
    policy applies. *)
Definition insert_consultation (new_id : uuid) (now : timestamptz) (uid : uuid)
    (i : ConsultationInsert.t) (db : Store) : Store * option PgError :=
  let r := insert_row new_id now i in
  if negb (patients_can_create_consultations db uid r)
  then (db, Some rls_violation)
  else if bool_decide (Consultation.id r ∈ Consultation.id <$> consultations db)
  then (db, Some unique_violation)
  else if negb (fk_patient db r && fk_doctor db r)
  then (db, Some foreign_key_violation)
  else (with_consultations db (consultations db ++ [r]), None).

(** [SELECT * FROM consultations] as [uid]: the rows the SELECT policy
    lets through. *)
Definition select_consultations (db : Store) (uid : uuid) : list Consultation.Row :=
  filter (λ r, select_using db uid r) (consultations db).

(** ** The client *)

(** What [useAuth()] hands to a screen: the session's subject, which the
    store sees as [auth.uid()], and the profile loaded for it, if any. *)
Record Session := {
  uid : uuid;
  profile : option Profile.Row }.

(** A call of [Alert.alert(title, message)]. *)
Record Alert := { title : string; message : string }.

Inductive Completion := returns | throws.

(** [String.prototype.trim] on strings of 8-bit code units: the white
    space and line terminator code units below 256 are TAB, LF, VT, FF,
    CR, SP and NBSP. *)
Definition is_white_space (c : ascii) : bool :=
  let n := nat_of_ascii c in
  ((9 <=? n)%nat && (n <=? 13)%nat) || (n =? 32)%nat || (n =? 160)%nat.

Fixpoint trim_start (s : string) : string :=
  match s with
  | EmptyString => EmptyString
  | String c s' => if is_white_space c then trim_start s' else s
  end.

Fixpoint trim_end (s : string) : string :=
  match s with
  | EmptyString => EmptyString
  | String c s' =>
      match trim_end s' with
      | EmptyString => if is_white_space c then EmptyString else String c EmptyString
      | t => String c t
      end
  end.

Definition trim (s : string) : string := trim_end (trim_start s).

(** [app/(tabs)/index.tsx] *)
Module HomeScreen.

Record State := {
  symptoms : string;
  urgencyLevel : Urgency;
  loading : bool }.

Definition isPatient (s : Session) : bool :=
  match profile s with
  | Some p => bool_decide (Profile.user_type p = patient)
  | None => false
  end.

(** The object passed to [.insert(...)]. *)
Definition request_payload (p : Profile.Row) (st : State) : ConsultationInsert.t :=
  {| ConsultationInsert.id := None;
     ConsultationInsert.patient_id := Profile.id p;
     ConsultationInsert.doctor_id := None;
     ConsultationInsert.status := Some pending;
     ConsultationInsert.urgency_level := urgencyLevel st;
     ConsultationInsert.symptoms := trim (symptoms st);
     ConsultationInsert.notes := None;
     ConsultationInsert.scheduled_at := None;
     ConsultationInsert.started_at := None;
     ConsultationInsert.completed_at := None;
     ConsultationInsert.created_at := None;
     ConsultationInsert.updated_at := None |}.

(** [handleRequestConsultation]: the store after the call, the component
    state after it, the alerts shown and how the call completed. The
    function has no return value. [profile!.id] throws when no profile is
    loaded, after [setLoading(true)]. *)
Definition handleRequestConsultation (new_id : uuid) (now : timestamptz)
    (s : Session) (st : State) (db : Store)
    : Store * State * list Alert * Completion :=
  if bool_decide (trim (symptoms st) = "")
  then (db, st,
        [{| title := "Error"; message := "Please describe your symptoms" |}],
        returns)
  else
    match profile s with
    | None =>
        (db,
         {| symptoms := symptoms st; urgencyLevel := urgencyLevel st; loading := true |},
         [], throws)
    | Some p =>
        match insert_consultation new_id now (uid s) (request_payload p st) db with
        | (db', Some _) =>
            (db',
             {| symptoms := symptoms st; urgencyLevel := urgencyLevel st;
                loading := false |},
             [{| title := "Error";
                 message := "Failed to request consultation. Please try again." |}],
             returns)
        | (db', None) =>
            (db',
             {| symptoms := ""; urgencyLevel := medium; loading := false |},
             [{| title := "Success";
                 message := "Your consultation request has been submitted. A doctor will be assigned shortly." |}],
             returns)
        end
    end.

End HomeScreen.

(** [app/(tabs)/consultations.tsx] *)
Module ConsultationsScreen.

Record State := {
  consultations : list Consultation.Row;
  loading : bool;
  refreshing : bool }.

(** [useState] initial values. *)
Definition initial : State :=
  {| consultations := []; loading := true; refreshing := false |}.

Definition isDoctor (s : Session) : bool :=
  match profile s with
  | Some p => bool_decide (Profile.user_type p = doctor)
  | None => false
  end.

(** The filter [fetchConsultations] adds to the query:
    [.or(doctor_id.eq.<id>,status.eq.pending)] for a doctor,
    [.eq('patient_id', <id>)] otherwise. *)
Definition query_filter (s : Session) (p : Profile.Row) (r : Consultation.Row) : bool :=
  if isDoctor s
  then bool_decide (Consultation.doctor_id r = Some (Profile.id p))
       || bool_decide (Consultation.status r = pending)
  else bool_decide (Consultation.patient_id r = Profile.id p).

(** [.order('created_at', { ascending: false })] *)
Definition newest_first (a b : Consultation.Row) : Prop :=
  (Consultation.created_at b ≤ Consultation.created_at a)%Z.

#[global] Instance newest_first_dec a b : Decision (newest_first a b).
Proof. unfold newest_first. apply _. Defined.

(** The rows the query of [fetchConsultations] returns, or [None] when
    the request is rejected: with no profile loaded the filter value is
    the text [undefined], which is not a uuid. The embedded [patient] and
    [doctor] names are display data and are not part of the model. *)
Definition query (db : Store) (s : Session) : option (list Consultation.Row) :=
  match profile s with
  | None => None
  | Some p =>
      Some (merge_sort newest_first
              (filter (λ r, query_filter s p r) (select_consultations db (uid s))))
  end.

(** [fetchConsultations]: the list is replaced only when data came back. *)
Definition fetchConsultations (db : Store) (s : Session) (st : State) : State :=
  {| consultations := default (consultations st) (query db s);
     loading := false;
     refreshing := false |}.

(** The object passed to [.update(...)] by each handler. A key whose value
    is [undefined] is not sent. *)
Definition accept_payload (s : Session) : ConsultationUpdate.t :=
  {| ConsultationUpdate.id := None;
     ConsultationUpdate.patient_id := None;
     ConsultationUpdate.doctor_id := (λ p, Some (Profile.id p)) <$> profile s;
     ConsultationUpdate.status := Some assigned;
     ConsultationUpdate.urgency_level := None;
     ConsultationUpdate.symptoms := None;
     ConsultationUpdate.notes := None;
     ConsultationUpdate.scheduled_at := None;
     ConsultationUpdate.started_at := None;
     ConsultationUpdate.completed_at := None;
     ConsultationUpdate.created_at := None;
     ConsultationUpdate.updated_at := None |}.

Definition start_payload (date : timestamptz) : ConsultationUpdate.t :=
  {| ConsultationUpdate.id := None;
     ConsultationUpdate.patient_id := None;
     ConsultationUpdate.doctor_id := None;
     ConsultationUpdate.status := Some in_progress;
     ConsultationUpdate.urgency_level := None;
     ConsultationUpdate.symptoms := None;
     ConsultationUpdate.notes := None;
     ConsultationUpdate.scheduled_at := None;
     ConsultationUpdate.started_at := Some (Some date);
     ConsultationUpdate.completed_at := None;
     ConsultationUpdate.created_at := None;
     ConsultationUpdate.updated_at := None |}.

Definition complete_payload (date : timestamptz) : ConsultationUpdate.t :=
  {| ConsultationUpdate.id := None;
     ConsultationUpdate.patient_id := None;
     ConsultationUpdate.doctor_id := None;
     ConsultationUpdate.status := Some completed;
     ConsultationUpdate.urgency_level := None;
     ConsultationUpdate.symptoms := None;
     ConsultationUpdate.notes := None;
     ConsultationUpdate.scheduled_at := None;
     ConsultationUpdate.started_at := None;
     ConsultationUpdate.completed_at := Some (Some date);
     ConsultationUpdate.created_at := None;
     ConsultationUpdate.updated_at := None |}.

(** The three handlers. [now] is the store's clock (the trigger), [date]
    the device's ([new Date()]). Each returns the store and the screen
    state after the call and the alerts shown. *)
Definition handleAcceptConsultation (now : timestamptz) (s : Session)
    (consultationId : uuid) (db : Store) (st : State)
    : Store * State * list Alert :=
  match update_consultations now (uid s) (accept_payload s) consultationId db with
  | (db', Some _) =>
      (db', st, [{| title := "Error"; message := "Failed to accept consultation" |}])
  | (db', None) =>
      (db', fetchConsultations db' s st,
       [{| title := "Success"; message := "Consultation accepted" |}])
  end.

Definition handleStartConsultation (now date : timestamptz) (s : Session)
    (consultationId : uuid) (db : Store) (st : State)
    : Store * State * list Alert :=
  match update_consultations now (uid s) (start_payload date) consultationId db with
  | (db', Some _) =>
      (db', st, [{| title := "Error"; message := "Failed to start consultation" |}])
  | (db', None) =>
      (db', fetchConsultations db' s st, [])
  end.

Definition handleCompleteConsultation (now date : timestamptz) (s : Session)
    (consultationId : uuid) (db : Store) (st : State)
    : Store * State * list Alert :=
  match update_consultations now (uid s) (complete_payload date) consultationId db with
  | (db', Some _) =>
      (db', st, [{| title := "Error"; message := "Failed to complete consultation" |}])
  | (db', None) =>
      (db', fetchConsultations db' s st,
       [{| title := "Success"; message := "Consultation completed" |}])
  end.

(** [!item.doctor_id]: null and the empty string are falsy. *)
Definition falsy (x : option string) : bool :=
  match x with
  | None => true
  | Some v => bool_decide (v = "")
  end.

(** [item.doctor_id === profile?.id] *)
Definition doctor_is_profile (s : Session) (item : Consultation.Row) : bool :=
  match profile s, Consultation.doctor_id item with
  | Some p, Some d => bool_decide (d = Profile.id p)
  | _, _ => false
  end.

(** The guards of [renderConsultation]: a card shows the Accept, Start or
    Complete button when the matching guard holds of the fetched item. *)
Definition isPending (s : Session) (item : Consultation.Row) : bool :=
  bool_decide (Consultation.status item = pending)
  && isDoctor s && falsy (Consultation.doctor_id item).

Definition isAssigned (s : Session) (item : Consultation.Row) : bool :=
  bool_decide (Consultation.status item = assigned)
  && isDoctor s && doctor_is_profile s item.

Definition isInProgress (s : Session) (item : Consultation.Row) : bool :=
  bool_decide (Consultation.status item = in_progress)
  && isDoctor s && doctor_is_profile s item.

End ConsultationsScreen.

(** ** A small population used by the examples

    One patient, two doctors, and one person who signed up as a patient,
    requested a consultation and later registered as a doctor. *)
Module Sample.

Definition profile_of (i : uuid) (t : UserType) : Profile.Row :=
  {| Profile.id := i; Profile.user_type := t; Profile.full_name := i;
     Profile.phone := None; Profile.created_at := 0%Z; Profile.updated_at := 0%Z |}.

Definition doctor_of (i : uuid) : Doctor.Row :=
  {| Doctor.id := i; Doctor.specialization := "General";
     Doctor.license_number := i; Doctor.is_available := true;
     Doctor.years_of_experience := 5%Z; Doctor.bio := None;
     Doctor.created_at := 0%Z; Doctor.updated_at := 0%Z |}.

Definition row (i p : uuid) (d : option uuid) (s : Status)
    (started : option timestamptz) : Consultation.Row :=
  {| Consultation.id := i; Consultation.patient_id := p;
     Consultation.doctor_id := d; Consultation.status := s;
     Consultation.urgency_level := high; Consultation.symptoms := "fever, chills";
     Consultation.notes := None; Consultation.scheduled_at := None;
     Consultation.started_at := started; Consultation.completed_at := None;
     Consultation.created_at := 10%Z; Consultation.updated_at := 10%Z |}.

Definition people : list Profile.Row :=
  [profile_of "P" patient; profile_of "D1" doctor; profile_of "D2" doctor;
   profile_of "Q" doctor].

Definition medics : list Doctor.Row :=
  [doctor_of "D1"; doctor_of "D2"; doctor_of "Q"].

Definition store_of (rows : list Consultation.Row) : Store :=
  {| profiles := people; doctors := medics; consultations := rows |}.

Definition as_user (i : uuid) (t : UserType) : Session :=
  {| uid := i; profile := Some (profile_of i t) |}.

Definition P := as_user "P" patient.
Definition D1 := as_user "D1" doctor.
Definition D2 := as_user "D2" doctor.
Definition Q := as_user "Q" doctor.

(** An update payload a patient can send with the store's own API:
    [{ doctor_id: 'D1', status: 'completed' }]. *)
Definition doctor_and_status : ConsultationUpdate.t :=
  {| ConsultationUpdate.id := None;
     ConsultationUpdate.patient_id := None;
     ConsultationUpdate.doctor_id := Some (Some "D1");
     ConsultationUpdate.status := Some completed;
     ConsultationUpdate.urgency_level := None;
     ConsultationUpdate.symptoms := None;
     ConsultationUpdate.notes := None;
     ConsultationUpdate.scheduled_at := None;
     ConsultationUpdate.started_at := None;
     ConsultationUpdate.completed_at := None;
     ConsultationUpdate.created_at := None;
     ConsultationUpdate.updated_at := None |}.


Definition form (text : string) : HomeScreen.State :=
  {| HomeScreen.symptoms := text; HomeScreen.urgencyLevel := high;
     HomeScreen.loading := false |}.

End Sample.

(** ** The invariant of the data model and the client as a transition system *)

(** [doctor_id] is non-null exactly when the status is assigned,
    in_progress or completed. *)
Definition doctor_iff_claimed (r : Consultation.Row) : Prop :=
  is_Some (Consultation.doctor_id r)
  ↔ Consultation.status r ∈ [assigned; in_progress; completed].

(** Data model, Doctor: a doctors row exists only for a profile whose role
    is doctor. The policy "Doctors can insert own profile" checks the role
    when the row is created, and the profile screen creates the row for a
    doctor profile only; no statement of the client changes a role. *)
Definition doctors_are_doctors (db : Store) : Prop :=
  ∀ d p, d ∈ doctors db → p ∈ profiles db →
         Profile.id p = Doctor.id d → Profile.user_type p = doctor.

(** The store together with the consultation lists the devices hold. A
    list is a snapshot of an earlier query; an index stands for one such
    snapshot, and a device whose refetch is still in flight holds two. *)
Record World := {
  store : Store;
  screens : nat → ConsultationsScreen.State }.

Definition set_screen (c : nat) (st : ConsultationsScreen.State)
    (f : nat → ConsultationsScreen.State) : nat → ConsultationsScreen.State :=
  λ c', if decide (c' = c) then st else f c'.

(** One user action. A device refetches (on mount, on pull-to-refresh, on
    a change notification); a patient submits the request form; a doctor
    presses the button a card shows, which exists only when the guard
    holds of the item the device fetched earlier; somebody signs up or
    saves the profile screen, which writes the profiles and doctors tables
    (taken here as any change of these two tables). *)
Inductive ui_step : World → World → Prop :=
| ui_account ps ds w :
    ui_step w
      {| store := {| profiles := ps; doctors := ds;
                     consultations := consultations (store w) |};
         screens := screens w |}
| ui_fetch c s w :
    ui_step w
      {| store := store w;
         screens := set_screen c
           (ConsultationsScreen.fetchConsultations (store w) s (screens w c))
           (screens w) |}
| ui_request new_id now s form w :
    HomeScreen.isPatient s = true →
    ui_step w
      {| store := (HomeScreen.handleRequestConsultation new_id now s form (store w)).1.1.1;
         screens := screens w |}
| ui_accept c now s item w :
    item ∈ ConsultationsScreen.consultations (screens w c) →
    ConsultationsScreen.isPending s item = true →
    ui_step w
      (let out := ConsultationsScreen.handleAcceptConsultation
                    now s (Consultation.id item) (store w) (screens w c) in
       {| store := out.1.1; screens := set_screen c out.1.2 (screens w) |})
| ui_start c now date s item w :
    item ∈ ConsultationsScreen.consultations (screens w c) →
    ConsultationsScreen.isAssigned s item = true →
    ui_step w
      (let out := ConsultationsScreen.handleStartConsultation
                    now date s (Consultation.id item) (store w) (screens w c) in
       {| store := out.1.1; screens := set_screen c out.1.2 (screens w) |})
| ui_complete c now date s item w :
    item ∈ ConsultationsScreen.consultations (screens w c) →
    ConsultationsScreen.isInProgress s item = true →
    ui_step w
      (let out := ConsultationsScreen.handleCompleteConsultation
                    now date s (Consultation.id item) (store w) (screens w c) in
       {| store := out.1.1; screens := set_screen c out.1.2 (screens w) |}).

(** Every item of the list is a row that still exists and that, if the
    item shows a doctor, still has one. *)
Definition listed_in (db : Store) (st : ConsultationsScreen.State) : Prop :=
  ∀ item, item ∈ ConsultationsScreen.consultations st →
    ∃ r, r ∈ consultations db
         ∧ Consultation.id r = Consultation.id item
         ∧ (is_Some (Consultation.doctor_id item) → is_Some (Consultation.doctor_id r)).


(** What the induction over user actions carries: identities are unique,
    every row satisfies [doctor_iff_claimed], and every list is
    [listed_in] the store. *)
Definition ui_invariant (w : World) : Prop :=
  NoDup (Consultation.id <$> consultations (store w))
  ∧ (∀ r, r ∈ consultations (store w) → doctor_iff_claimed r)
  ∧ (∀ c, listed_in (store w) (screens w c)).

(** The columns a start leaves alone, and those a complete leaves alone. *)
Definition untouched_by_start (r : Consultation.Row) :=
  (Consultation.id r, Consultation.patient_id r, Consultation.doctor_id r,
   Consultation.urgency_level r, Consultation.symptoms r, Consultation.notes r,
   Consultation.scheduled_at r, Consultation.completed_at r,
   Consultation.created_at r).

Definition untouched_by_complete (r : Consultation.Row) :=
  (Consultation.id r, Consultation.patient_id r, Consultation.doctor_id r,
   Consultation.urgency_level r, Consultation.symptoms r, Consultation.notes r,
   Consultation.scheduled_at r, Consultation.started_at r,
   Consultation.created_at r).

(** ** The card of a consultation

    [renderConsultation], as far as the model goes: the colours of the two
    badges and the buttons the card shows. *)
Module Card.

(** The text the store holds for a status and for an urgency level. *)
Definition status_text (s : Status) : string :=
  match s with
  | pending => "pending"
  | assigned => "assigned"
  | in_progress => "in_progress"
  | completed => "completed"
  | cancelled => "cancelled"
  end.

Definition urgency_text (l : Urgency) : string :=
  match l with
  | low => "low"
  | medium => "medium"
  | high => "high"
  | critical => "critical"
  end.

Definition getStatusColor (status : string) : string :=
  if bool_decide (status = "pending") then "#f59e0b"
  else if bool_decide (status = "assigned") then "#3b82f6"
  else if bool_decide (status = "in_progress") then "#8b5cf6"
  else if bool_decide (status = "completed") then "#10b981"
  else if bool_decide (status = "cancelled") then "#ef4444"
  else "#9ca3af".

Definition getUrgencyColor (level : string) : string :=
  if bool_decide (level = "low") then "#10b981"
  else if bool_decide (level = "medium") then "#f59e0b"
  else if bool_decide (level = "high") then "#ef4444"
  else if bool_decide (level = "critical") then "#991b1b"
  else "#9ca3af".

Inductive Button := AcceptConsultation | StartConsultation | CompleteConsultation.

(** The buttons of the card, in the order they are rendered. *)
Definition buttons (s : Session) (item : Consultation.Row) : list Button :=
  (if ConsultationsScreen.isPending s item then [AcceptConsultation] else [])
  ++ (if ConsultationsScreen.isAssigned s item then [StartConsultation] else [])
  ++ (if ConsultationsScreen.isInProgress s item then [CompleteConsultation] else []).

End Card.

(** ** Further notions used below *)

(** The caller is the row's patient, or its doctor and registered as one. *)
Definition related (db : Store) (uid : uuid) (r : Consultation.Row) : Prop :=
  Consultation.patient_id r = uid
  ∨ (Consultation.doctor_id r = Some uid ∧ uid ∈ Doctor.id <$> doctors db).

(** Identities are unique and every reference points to a row. *)
Definition well_formed (db : Store) : Prop :=
  NoDup (Consultation.id <$> consultations db)
  ∧ ∀ r, r ∈ consultations db → fk_patient db r = true ∧ fk_doctor db r = true.

(** The columns no handler of the client writes. *)
Definition fixed_columns (r : Consultation.Row) :=
  (Consultation.id r, Consultation.patient_id r, Consultation.urgency_level r,
   Consultation.symptoms r, Consultation.notes r, Consultation.scheduled_at r,
   Consultation.created_at r).

Definition clean_symptoms (r : Consultation.Row) : Prop :=
  trim (Consultation.symptoms r) = Consultation.symptoms r
  ∧ Consultation.symptoms r ≠ "".




(** ** Profiles and doctors: payloads, policies and statements *)

Module ProfileUpdate.
Record t := {
  id : option uuid;
  user_type : option UserType;
  full_name : option string;
  phone : option (option string);
  created_at : option timestamptz;
  updated_at : option timestamptz }.
End ProfileUpdate.

Module DoctorInsert.
Record t := {
  id : uuid;
  specialization : string;
  license_number : string;
  is_available : option bool;
  years_of_experience : option Z;
  bio : option (option string);
  created_at : option timestamptz;
  updated_at : option timestamptz }.
End DoctorInsert.

Module DoctorUpdate.
Record t := {
  id : option uuid;
  specialization : option string;
  license_number : option string;
  is_available : option bool;
  years_of_experience : option Z;
  bio : option (option string);
  created_at : option timestamptz;
  updated_at : option timestamptz }.
End DoctorUpdate.

Definition with_profiles (db : Store) (rows : list Profile.Row) : Store :=
  {| profiles := rows; doctors := doctors db; consultations := consultations db |}.

Definition with_doctors (db : Store) (rows : list Doctor.Row) : Store :=
  {| profiles := profiles db; doctors := rows; consultations := consultations db |}.

(** "Users can view own profile" (USING) and "Users can update own
    profile" (USING and WITH CHECK): [auth.uid() = id]. *)
Definition users_can_view_own_profile (uid : uuid) (p : Profile.Row) : bool :=
  bool_decide (uid = Profile.id p).

Definition users_can_update_own_profile (uid : uuid) (p : Profile.Row) : bool :=
  bool_decide (uid = Profile.id p).

(** "Anyone can view doctor profiles": [USING (true)]. *)
Definition anyone_can_view_doctor_profiles (d : Doctor.Row) : bool := true.

(** "Doctors can insert own profile", WITH CHECK. *)
Definition doctors_can_insert_own_profile (db : Store) (uid : uuid) (d : Doctor.Row)
    : bool :=
  bool_decide (uid = Doctor.id d) && has_role db uid doctor.

(** "Doctors can update own profile", USING and WITH CHECK. *)
Definition doctors_can_update_own_profile (uid : uuid) (d : Doctor.Row) : bool :=
  bool_decide (uid = Doctor.id d).

Definition updated_profile (now : timestamptz) (u : ProfileUpdate.t) (p : Profile.Row)
    : Profile.Row :=
  {| Profile.id := default (Profile.id p) (ProfileUpdate.id u);
     Profile.user_type := default (Profile.user_type p) (ProfileUpdate.user_type u);
     Profile.full_name := default (Profile.full_name p) (ProfileUpdate.full_name u);
     Profile.phone := default (Profile.phone p) (ProfileUpdate.phone u);
     Profile.created_at := default (Profile.created_at p) (ProfileUpdate.created_at u);
     Profile.updated_at := now |}.

Definition profile_target (uid where_id : uuid) (p : Profile.Row) : bool :=
  bool_decide (Profile.id p = where_id)
  && users_can_view_own_profile uid p
  && users_can_update_own_profile uid p.

(** [UPDATE profiles SET u WHERE id = where_id] as [uid]. The trigger
    sets [updated_at]; the new row must pass the WITH CHECK (and stay
    visible); a changed identity must be free. *)
Definition update_profiles (now : timestamptz) (uid : uuid) (u : ProfileUpdate.t)
    (where_id : uuid) (db : Store) : Store * option PgError :=
  let targets := filter (λ p, profile_target uid where_id p) (profiles db) in
  let rows' :=
    (λ p, if profile_target uid where_id p then updated_profile now u p else p)
      <$> profiles db in
  if negb (forallb (λ p, users_can_update_own_profile uid (updated_profile now u p)
                         && users_can_view_own_profile uid (updated_profile now u p))
             targets)
  then (db, Some rls_violation)
  else if negb (forallb (λ p, bool_decide (Profile.id (updated_profile now u p)
                                           = Profile.id p)) targets)
               && negb (bool_decide (NoDup (Profile.id <$> rows')))
  then (db, Some unique_violation)
  else (with_profiles db rows', None).

Definition updated_doctor (now : timestamptz) (u : DoctorUpdate.t) (d : Doctor.Row)
    : Doctor.Row :=
  {| Doctor.id := default (Doctor.id d) (DoctorUpdate.id u);
     Doctor.specialization :=
       default (Doctor.specialization d) (DoctorUpdate.specialization u);
     Doctor.license_number :=
       default (Doctor.license_number d) (DoctorUpdate.license_number u);
     Doctor.is_available :=
       default (Doctor.is_available d) (DoctorUpdate.is_available u);
     Doctor.years_of_experience :=
       default (Doctor.years_of_experience d) (DoctorUpdate.years_of_experience u);
     Doctor.bio := default (Doctor.bio d) (DoctorUpdate.bio u);
     Doctor.created_at := default (Doctor.created_at d) (DoctorUpdate.created_at u);
     Doctor.updated_at := now |}.

Definition doctor_target (uid where_id : uuid) (d : Doctor.Row) : bool :=
  bool_decide (Doctor.id d = where_id)
  && anyone_can_view_doctor_profiles d
  && doctors_can_update_own_profile uid d.

(** [UPDATE doctors SET u WHERE id = where_id] as [uid]. Besides the
    policy and the primary key, [license_number] is UNIQUE and [id]
    references profiles. *)
Definition update_doctors (now : timestamptz) (uid : uuid) (u : DoctorUpdate.t)
    (where_id : uuid) (db : Store) : Store * option PgError :=
  let targets := filter (λ d, doctor_target uid where_id d) (doctors db) in
  let rows' :=
    (λ d, if doctor_target uid where_id d then updated_doctor now u d else d)
      <$> doctors db in
  if negb (forallb (λ d, doctors_can_update_own_profile uid (updated_doctor now u d)
                         && anyone_can_view_doctor_profiles (updated_doctor now u d))
             targets)
  then (db, Some rls_violation)
  else if negb (forallb (λ d, bool_decide (Doctor.id (updated_doctor now u d)
                                           = Doctor.id d)) targets)
               && negb (bool_decide (NoDup (Doctor.id <$> rows')))
  then (db, Some unique_violation)
  else if negb (forallb (λ d, bool_decide (Doctor.license_number (updated_doctor now u d)
                                           = Doctor.license_number d)) targets)
               && negb (bool_decide (NoDup (Doctor.license_number <$> rows')))
  then (db, Some unique_violation)
  else if negb (forallb (λ d, bool_decide (Doctor.id (updated_doctor now u d)
                                           = Doctor.id d)
                              || bool_decide (Doctor.id (updated_doctor now u d)
                                              ∈ Profile.id <$> profiles db)) targets)
  then (db, Some foreign_key_violation)
  else (with_doctors db rows', None).

(** Column defaults of an INSERT into doctors: [is_available DEFAULT
    false], [years_of_experience DEFAULT 0], timestamps [DEFAULT now()]. *)
Definition inserted_doctor (now : timestamptz) (i : DoctorInsert.t) : Doctor.Row :=
  {| Doctor.id := DoctorInsert.id i;
     Doctor.specialization := DoctorInsert.specialization i;
     Doctor.license_number := DoctorInsert.license_number i;
     Doctor.is_available := default false (DoctorInsert.is_available i);
     Doctor.years_of_experience := default 0%Z (DoctorInsert.years_of_experience i);
     Doctor.bio := default None (DoctorInsert.bio i);
     Doctor.created_at := default now (DoctorInsert.created_at i);
     Doctor.updated_at := default now (DoctorInsert.updated_at i) |}.

(** [INSERT INTO doctors] as [uid]. *)
Definition insert_doctor (now : timestamptz) (uid : uuid) (i : DoctorInsert.t)
    (db : Store) : Store * option PgError :=
  let d := inserted_doctor now i in
  if negb (doctors_can_insert_own_profile db uid d)
  then (db, Some rls_violation)
  else if bool_decide (Doctor.id d ∈ Doctor.id <$> doctors db)
          || bool_decide (Doctor.license_number d ∈ Doctor.license_number <$> doctors db)
  then (db, Some unique_violation)
  else if negb (bool_decide (Doctor.id d ∈ Profile.id <$> profiles db))
  then (db, Some foreign_key_violation)
  else (with_doctors db (doctors db ++ [d]), None).

(** [SELECT ... FROM doctors WHERE id = where_id]: every row is visible. *)
Definition select_doctors (db : Store) (where_id : uuid) : list Doctor.Row :=
  filter (λ d, Doctor.id d = where_id)
    (filter (λ d, anyone_can_view_doctor_profiles d) (doctors db)).

(** [.maybeSingle()]: the row when there is exactly one; no data when
    there is none, and no data with an error when there are several. *)
Definition maybeSingle {A} (rows : list A) : option A :=
  match rows with
  | [x] => Some x
  | _ => None
  end.

(** [app/(tabs)/profile.tsx] *)
Module ProfileScreen.

Record DoctorProfile := {
  specialization : string;
  license_number : string;
  is_available : bool;
  years_of_experience : Z;
  bio : string }.

Record State := {
  loading : bool;
  saving : bool;
  fullName : string;
  phone : string;
  doctorProfile : DoctorProfile }.

(** [useState] initial values: [profile?.full_name || ''],
    [profile?.phone || ''] and the empty doctor form. *)
Definition initial (s : Session) : State :=
  {| loading := false;
     saving := false;
     fullName := match profile s with Some p => Profile.full_name p | None => "" end;
     phone := match profile s with
              | Some p => default "" (Profile.phone p)
              | None => ""
              end;
     doctorProfile :=
       {| specialization := ""; license_number := ""; is_available := false;
          years_of_experience := 0; bio := "" |} |}.

Definition isDoctor (s : Session) : bool :=
  match profile s with
  | Some p => bool_decide (Profile.user_type p = doctor)
  | None => false
  end.

(** [fetchDoctorProfile]: the form is replaced when a row came back;
    [data.bio || ''] turns null into the empty text. With no profile
    loaded the filter value is no uuid and the request is rejected. *)
Definition fetchDoctorProfile (db : Store) (s : Session) (st : State) : State :=
  let data :=
    match profile s with
    | Some p => maybeSingle (select_doctors db (Profile.id p))
    | None => None
    end in
  {| loading := false;
     saving := saving st;
     fullName := fullName st;
     phone := phone st;
     doctorProfile :=
       match data with
       | Some d =>
           {| specialization := Doctor.specialization d;
              license_number := Doctor.license_number d;
              is_available := Doctor.is_available d;
              years_of_experience := Doctor.years_of_experience d;
              bio := default "" (Doctor.bio d) |}
       | None => doctorProfile st
       end |}.

(** [handleToggleAvailability] *)
Definition handleToggleAvailability (value : bool) (st : State) : State :=
  {| loading := loading st; saving := saving st; fullName := fullName st;
     phone := phone st;
     doctorProfile :=
       {| specialization := specialization (doctorProfile st);
          license_number := license_number (doctorProfile st);
          is_available := value;
          years_of_experience := years_of_experience (doctorProfile st);
          bio := bio (doctorProfile st) |} |}.

(** The objects passed to [.update(...)] and [.insert(...)]. *)
Definition profile_payload (st : State) : ProfileUpdate.t :=
  {| ProfileUpdate.id := None;
     ProfileUpdate.user_type := None;
     ProfileUpdate.full_name := Some (fullName st);
     ProfileUpdate.phone :=
       Some (if bool_decide (phone st = "") then None else Some (phone st));
     ProfileUpdate.created_at := None;
     ProfileUpdate.updated_at := None |}.

Definition doctor_update_payload (f : DoctorProfile) : DoctorUpdate.t :=
  {| DoctorUpdate.id := None;
     DoctorUpdate.specialization := Some (specialization f);
     DoctorUpdate.license_number := Some (license_number f);
     DoctorUpdate.is_available := Some (is_available f);
     DoctorUpdate.years_of_experience := Some (years_of_experience f);
     DoctorUpdate.bio := Some (Some (bio f));
     DoctorUpdate.created_at := None;
     DoctorUpdate.updated_at := None |}.

Definition doctor_insert_payload (p : Profile.Row) (f : DoctorProfile) : DoctorInsert.t :=
  {| DoctorInsert.id := Profile.id p;
     DoctorInsert.specialization := specialization f;
     DoctorInsert.license_number := license_number f;
     DoctorInsert.is_available := Some (is_available f);
     DoctorInsert.years_of_experience := Some (years_of_experience f);
     DoctorInsert.bio := Some (Some (bio f));
     DoctorInsert.created_at := None;
     DoctorInsert.updated_at := None |}.

Definition stop_saving (st : State) : State :=
  {| loading := loading st; saving := false; fullName := fullName st;
     phone := phone st; doctorProfile := doctorProfile st |}.

(** [handleUpdateProfile]. [now1] and [now2] are the store's times of the
    two writes. [refreshProfile] belongs to the auth context and
    [message_of] is the text the store gives for an error; both are
    parameters. With no profile loaded the filter value of the first
    write is no uuid and the request is rejected. The result is the
    store, the screen state, the session and the alerts after the call. *)
Definition handleUpdateProfile
    (refreshProfile : Store → Session → Session) (message_of : PgError → string)
    (now1 now2 : timestamptz) (s : Session) (st : State) (db : Store)
    : Store * State * Session * list Alert :=
  let failed db' text :=
    (db', stop_saving st, s, [{| title := "Error"; message := text |}]) in
  let finish db' :=
    (db', stop_saving st, refreshProfile db' s,
     [{| title := "Success"; message := "Profile updated successfully" |}]) in
  match profile s with
  | None => failed db "Failed to update profile"
  | Some p =>
      match update_profiles now1 (uid s) (profile_payload st) (Profile.id p) db with
      | (db1, Some _) => failed db1 "Failed to update profile"
      | (db1, None) =>
          if bool_decide (Profile.user_type p = doctor)
          then
            match maybeSingle (select_doctors db1 (Profile.id p)) with
            | Some _ =>
                match update_doctors now2 (uid s)
                        (doctor_update_payload (doctorProfile st)) (Profile.id p) db1 with
                | (db2, Some _) => failed db2 "Failed to update doctor profile"
                | (db2, None) => finish db2
                end
            | None =>
                match insert_doctor now2 (uid s)
                        (doctor_insert_payload p (doctorProfile st)) db1 with
                | (db2, Some e) =>
                    failed db2 ("Failed to create doctor profile: " ++ message_of e)
                | (db2, None) => finish db2
                end
            end
          else finish db1
      end
  end.

End ProfileScreen.

(** ** Two more payloads of the store's API used by the examples *)

(** [{ user_type: 'patient' }], sent by a user for the own profiles row. *)
Definition become_patient : ProfileUpdate.t :=
  {| ProfileUpdate.id := None;
     ProfileUpdate.user_type := Some patient;
     ProfileUpdate.full_name := None;
     ProfileUpdate.phone := None;
     ProfileUpdate.created_at := None;
     ProfileUpdate.updated_at := None |}.

(** [{ status: 'cancelled' }] *)
Definition cancel_payload : ConsultationUpdate.t :=
  {| ConsultationUpdate.id := None;
     ConsultationUpdate.patient_id := None;
     ConsultationUpdate.doctor_id := None;
     ConsultationUpdate.status := Some cancelled;
     ConsultationUpdate.urgency_level := None;
     ConsultationUpdate.symptoms := None;
     ConsultationUpdate.notes := None;
     ConsultationUpdate.scheduled_at := None;
     ConsultationUpdate.started_at := None;
     ConsultationUpdate.completed_at := None;
     ConsultationUpdate.created_at := None;
     ConsultationUpdate.updated_at := None |}.

(** * Properties *)

(** ** The UPDATE statement *)

Section update_statement.
Context (now : timestamptz) (uid : uuid) (u : ConsultationUpdate.t)
  (where_id : uuid) (db : Store).

Lemma with_consultations_same : with_consultations db (consultations db) = db.
Proof. by destruct db. Qed.

(** Either the statement fails and nothing changes, or every target is
    replaced by its new row, which passed every check. *)
Lemma update_consultations_inv db' e :
  update_consultations now uid u where_id db = (db', e) →
  (db' = db ∧ is_Some e)
  ∨ (e = None
     ∧ db' = with_consultations db
               (update_step now uid u where_id db <$> consultations db)
     ∧ ∀ r, r ∈ consultations db → update_target db uid where_id r = true →
         update_check db uid (updated_row now u r) = true
         ∧ select_using db uid (updated_row now u r) = true
         ∧ fk_update db r (updated_row now u r) = true).
Proof.
  unfold update_consultations.
  destruct (forallb _ _) eqn:Hrls; simpl; [|intros [= <- <-]; left; eauto].
  destruct (negb (forallb _ _) && _); [intros [= <- <-]; left; eauto|].
  destruct (forallb (λ r, fk_update _ _ _) _) eqn:Hfk; simpl;
    [|intros [= <- <-]; left; eauto].
  intros [= <- <-]. right. split; [done|]. split; [done|].
  intros r Hr Ht.
  assert (r ∈ filter (λ r, update_target db uid where_id r) (consultations db)) as Hin.
  { apply list_elem_of_filter. split; [by apply Is_true_true|done]. }
  apply list_elem_of_In in Hin.
  rewrite forallb_forall in Hrls. rewrite forallb_forall in Hfk.
  specialize (Hrls _ Hin). specialize (Hfk _ Hin).
  apply andb_true_iff in Hrls as [? ?]. done.
Qed.

Lemma no_target_filter (rows : list Consultation.Row) :
  (∀ r, r ∈ rows → update_target db uid where_id r = false) →
  filter (λ r, update_target db uid where_id r) rows = []
  ∧ update_step now uid u where_id db <$> rows = rows.
Proof.
  induction rows as [|r rows IH]; intros Hno; [done|].
  destruct IH as [IH1 IH2]; [intros; apply Hno; by right|].
  assert (update_target db uid where_id r = false) as Hr by (apply Hno; by left).
  split.
  - rewrite filter_cons_False; [done|]. rewrite Hr. intros [].
  - rewrite fmap_cons, IH2. unfold update_step. by rewrite Hr.
Qed.

(** A statement that finds no target succeeds and changes nothing. *)
Lemma update_consultations_no_target :
  (∀ r, r ∈ consultations db → update_target db uid where_id r = false) →
  update_consultations now uid u where_id db = (db, None).
Proof.
  intros Hno. destruct (no_target_filter _ Hno) as [Hf Hm].
  unfold update_consultations. rewrite Hf, Hm. simpl.
  by rewrite with_consultations_same.
Qed.

(** The other tables are never written. *)
Lemma update_consultations_tables db' e :
  update_consultations now uid u where_id db = (db', e) →
  profiles db' = profiles db ∧ doctors db' = doctors db.
Proof.
  intros H. apply update_consultations_inv in H as [[-> _]|(_ & -> & _)]; done.
Qed.

(** A column the [SET] clause and the trigger leave alone reads the same
    in every row after the statement. *)
Lemma update_consultations_column {A} (f : Consultation.Row → A) db' e :
  (∀ r, f (updated_row now u r) = f r) →
  update_consultations now uid u where_id db = (db', e) →
  f <$> consultations db' = f <$> consultations db.
Proof.
  intros Hf H. apply update_consultations_inv in H as [[-> _]|(_ & -> & _)]; [done|].
  simpl. rewrite <- list_fmap_compose. apply list_fmap_ext.
  intros i r _. simpl. unfold update_step. by destruct (update_target _ _ _ _).
Qed.

End update_statement.

(** ** The policies *)

Section policies.
Context (db : Store) (uid : uuid).

Lemma sql_exists_elem {A} (l : list A) : sql_exists l = true ↔ ∃ x, x ∈ l.
Proof.
  destruct l as [|x l]; simpl; split; try done.
  - intros [x Hx]. by apply elem_of_nil in Hx.
  - intros _. exists x. by left.
Qed.

Lemma sql_in_own_doctor_ids (x : option uuid) :
  sql_in x (own_doctor_ids db uid) = true
  ↔ x = Some uid ∧ uid ∈ Doctor.id <$> doctors db.
Proof.
  unfold sql_in, own_doctor_ids. destruct x as [v|]; [|split; [done|by intros [? _]]].
  rewrite bool_decide_eq_true, list_elem_of_fmap. split.
  - intros (d & -> & Hd). apply list_elem_of_filter in Hd as [Hid Hd].
    split; [by rewrite Hid|]. rewrite <- Hid. by apply list_elem_of_fmap_2.
  - intros [[= ->] Hin]. apply list_elem_of_fmap in Hin as (d & -> & Hd).
    exists d. split; [done|]. by apply list_elem_of_filter.
Qed.

Lemma has_doctor_row :
  sql_exists (filter (λ d, Doctor.id d = uid) (doctors db)) = true
  ↔ uid ∈ Doctor.id <$> doctors db.
Proof.
  rewrite sql_exists_elem, list_elem_of_fmap. split.
  - intros (d & Hd). apply list_elem_of_filter in Hd as [Hid Hd]. eauto.
  - intros (d & -> & Hd). exists d. by apply list_elem_of_filter.
Qed.

Lemma select_using_spec (r : Consultation.Row) :
  select_using db uid r = true
  ↔ Consultation.patient_id r = uid
    ∨ (Consultation.doctor_id r = Some uid ∧ uid ∈ Doctor.id <$> doctors db).
Proof.
  unfold select_using, patients_can_view_own_consultations.
  by rewrite orb_true_iff, bool_decide_eq_true, sql_in_own_doctor_ids.
Qed.

Lemma update_using_spec (r : Consultation.Row) :
  update_using db uid r = true
  ↔ Consultation.patient_id r = uid
    ∨ (Consultation.doctor_id r = Some uid ∧ uid ∈ Doctor.id <$> doctors db)
    ∨ (Consultation.doctor_id r = None ∧ uid ∈ Doctor.id <$> doctors db).
Proof.
  unfold update_using, patients_can_update_own_consultations,
    doctors_can_update_assigned_consultations_using.
  by rewrite !orb_true_iff, andb_true_iff, !bool_decide_eq_true,
    sql_in_own_doctor_ids, has_doctor_row.
Qed.

Lemma update_check_spec (r : Consultation.Row) :
  update_check db uid r = true
  ↔ Consultation.patient_id r = uid
    ∨ (Consultation.doctor_id r = Some uid ∧ uid ∈ Doctor.id <$> doctors db).
Proof.
  unfold update_check, patients_can_update_own_consultations,
    doctors_can_update_assigned_consultations_check.
  by rewrite orb_true_iff, bool_decide_eq_true, sql_in_own_doctor_ids.
Qed.

(** The rows an UPDATE as [uid] can reach: the caller is the row's
    patient, or the row's doctor and registered as one. *)
Lemma update_target_spec (where_id : uuid) (r : Consultation.Row) :
  update_target db uid where_id r = true
  ↔ Consultation.id r = where_id
    ∧ (Consultation.patient_id r = uid
       ∨ (Consultation.doctor_id r = Some uid ∧ uid ∈ Doctor.id <$> doctors db)).
Proof.
  unfold update_target.
  rewrite !andb_true_iff, bool_decide_eq_true, select_using_spec, update_using_spec.
  tauto.
Qed.

Lemma update_target_foreign (where_id : uuid) (r : Consultation.Row) :
  Consultation.patient_id r ≠ uid →
  Consultation.doctor_id r ≠ Some uid →
  update_target db uid where_id r = false.
Proof.
  intros Hp Hd. apply not_true_is_false. rewrite update_target_spec. tauto.
Qed.

End policies.

(** ** The handlers: what reaches the store *)

Lemma handleAcceptConsultation_store now s cid db st :
  (ConsultationsScreen.handleAcceptConsultation now s cid db st).1.1
  = (update_consultations now (uid s) (ConsultationsScreen.accept_payload s) cid db).1.
Proof.
  unfold ConsultationsScreen.handleAcceptConsultation.
  by destruct (update_consultations _ _ _ _ _) as [db' [e|]].
Qed.

Lemma handleStartConsultation_store now date s cid db st :
  (ConsultationsScreen.handleStartConsultation now date s cid db st).1.1
  = (update_consultations now (uid s) (ConsultationsScreen.start_payload date) cid db).1.
Proof.
  unfold ConsultationsScreen.handleStartConsultation.
  by destruct (update_consultations _ _ _ _ _) as [db' [e|]].
Qed.

Lemma handleCompleteConsultation_store now date s cid db st :
  (ConsultationsScreen.handleCompleteConsultation now date s cid db st).1.1
  = (update_consultations now (uid s) (ConsultationsScreen.complete_payload date) cid db).1.
Proof.
  unfold ConsultationsScreen.handleCompleteConsultation.
  by destruct (update_consultations _ _ _ _ _) as [db' [e|]].
Qed.

Lemma update_consultations_frame {A} (f : Consultation.Row → A) now uid u cid db :
  (∀ r, f (updated_row now u r) = f r) →
  let db' := (update_consultations now uid u cid db).1 in
  profiles db' = profiles db ∧ doctors db' = doctors db
  ∧ f <$> consultations db' = f <$> consultations db.
Proof.
  intros Hf. simpl.
  destruct (update_consultations now uid u cid db) as [db' e] eqn:H. simpl.
  destruct (update_consultations_tables _ _ _ _ _ _ _ H) as [? ?].
  eauto using update_consultations_column.
Qed.

(** Row by row, what a statement does: a row is as before or is the new
    row the statement computed for it. *)
Lemma update_consultations_rows now uid u cid db :
  Forall2 (λ r r', r' = r ∨ r' = updated_row now u r)
    (consultations db) (consultations (update_consultations now uid u cid db).1).
Proof.
  destruct (update_consultations now uid u cid db) as [db' e] eqn:H.
  apply update_consultations_inv in H as [[-> _]|(_ & -> & _)]; simpl.
  { apply Forall_Forall2_diag, Forall_forall. by left. }
  apply Forall2_fmap_r, Forall_Forall2_diag, Forall_forall. intros r _. simpl.
  unfold update_step. destruct (update_target _ _ _ _); eauto.
Qed.

(** C10: the start handler writes only [status] and [started_at], the
    complete handler only [status] and [completed_at], the trigger
    [updated_at]. Whoever calls them on whichever consultation, every
    other column of every consultation row reads as before, in the same
    row order, and the other two tables are as before; a row that was
    written holds the new status, the device's time in the timestamp of
    the transition and the store's time in [updated_at]. *)
Theorem start_and_complete_leave_other_columns now date s consultationId db st :
  let started :=
    (ConsultationsScreen.handleStartConsultation now date s consultationId db st).1.1 in
  let finished :=
    (ConsultationsScreen.handleCompleteConsultation now date s consultationId db st).1.1 in
  (profiles started = profiles db ∧ doctors started = doctors db
   ∧ untouched_by_start <$> consultations started
     = untouched_by_start <$> consultations db
   ∧ Forall2 (λ r r', r' = r
                      ∨ (Consultation.status r' = in_progress
                         ∧ Consultation.started_at r' = Some date
                         ∧ Consultation.updated_at r' = now))
       (consultations db) (consultations started))
  ∧ (profiles finished = profiles db ∧ doctors finished = doctors db
     ∧ untouched_by_complete <$> consultations finished
       = untouched_by_complete <$> consultations db
     ∧ Forall2 (λ r r', r' = r
                        ∨ (Consultation.status r' = completed
                           ∧ Consultation.completed_at r' = Some date
                           ∧ Consultation.updated_at r' = now))
         (consultations db) (consultations finished)).
Proof.
  simpl. rewrite handleStartConsultation_store, handleCompleteConsultation_store.
  split.
  - destruct (update_consultations_frame untouched_by_start now (uid s)
                (ConsultationsScreen.start_payload date) consultationId db)
      as (? & ? & ?); [done|].
    repeat (split; [done|]).
    eapply Forall2_impl; [apply update_consultations_rows|].
    intros r r' [->| ->]; [by left|by right].
  - destruct (update_consultations_frame untouched_by_complete now (uid s)
                (ConsultationsScreen.complete_payload date) consultationId db)
      as (? & ? & ?); [done|].
    repeat (split; [done|]).
    eapply Forall2_impl; [apply update_consultations_rows|].
    intros r r' [->| ->]; [by left|by right].
Qed.

(** C9: a request whose symptoms text is empty shows the error alert
    "Please describe your symptoms" and returns before anything is sent:
    the store and the form are as before. *)
Theorem request_with_empty_symptoms_is_rejected new_id now s level busy db :
  let form := {| HomeScreen.symptoms := ""; HomeScreen.urgencyLevel := level;
                 HomeScreen.loading := busy |} in
  HomeScreen.handleRequestConsultation new_id now s form db
  = (db, form,
     [{| title := "Error"; message := "Please describe your symptoms" |}],
     returns).
Proof. reflexivity. Qed.

(** The same holds of a text made of white space only. *)
Lemma request_with_blank_symptoms_is_rejected new_id now s form db :
  trim (HomeScreen.symptoms form) = "" →
  HomeScreen.handleRequestConsultation new_id now s form db
  = (db, form,
     [{| title := "Error"; message := "Please describe your symptoms" |}],
     returns).
Proof.
  intros H. unfold HomeScreen.handleRequestConsultation.
  by rewrite bool_decide_eq_true_2.
Qed.

Lemma select_using_with_consultations db rows uid r :
  select_using (with_consultations db rows) uid r = select_using db uid r.
Proof. reflexivity. Qed.

(** What a refreshed list can hold: rows of the store that the SELECT
    policy shows to the caller, or, when the request was rejected, the
    list as it was. *)
Lemma fetchConsultations_elem db s st item :
  item ∈ ConsultationsScreen.consultations
           (ConsultationsScreen.fetchConsultations db s st) →
  (profile s = None ∧ item ∈ ConsultationsScreen.consultations st)
  ∨ (item ∈ consultations db ∧ select_using db (uid s) item = true).
Proof.
  unfold ConsultationsScreen.fetchConsultations, ConsultationsScreen.query. simpl.
  destruct (profile s) as [p|]; simpl; [|by left].
  rewrite merge_sort_Permutation. intros Hin. right.
  apply list_elem_of_filter in Hin as [_ Hin].
  apply list_elem_of_filter in Hin as [Hsel Hin].
  split; [done|]. by apply Is_true_true.
Qed.

(** A consultation without a doctor is visible to its patient only: no
    caller's list, whatever its filter, holds such a row of somebody
    else. *)
Lemma unclaimed_request_is_visible_to_its_patient_only db s item :
  item ∈ ConsultationsScreen.consultations
           (ConsultationsScreen.fetchConsultations db s ConsultationsScreen.initial) →
  Consultation.doctor_id item = None →
  Consultation.patient_id item = uid s.
Proof.
  intros Hin Hdoc.
  apply fetchConsultations_elem in Hin as [[_ Hin]|[_ Hsel]].
  { by apply elem_of_nil in Hin. }
  apply select_using_spec in Hsel as [?|[Hd _]]; [done|congruence].
Qed.

(** C4: the SELECT policy hides a pending consultation from every doctor
    who is not its patient. Patient P submits a request; the row is
    stored as pending with no doctor; the policy evaluates to false for
    doctor D1 on it, and D1's list, whose filter asks for pending rows,
    comes back empty. *)
Theorem pending_request_is_hidden_from_doctors :
  let db := (HomeScreen.handleRequestConsultation "c1" 10%Z Sample.P
               (Sample.form "fever, chills") (Sample.store_of [])).1.1.1 in
  let r := Sample.row "c1" "P" None pending None in
  consultations db = [r]
  ∧ ConsultationsScreen.isDoctor Sample.D1 = true
  ∧ patients_can_view_own_consultations db "D1" r = false
  ∧ ConsultationsScreen.query db Sample.D1 = Some []
  ∧ ConsultationsScreen.consultations
      (ConsultationsScreen.fetchConsultations db Sample.D1 ConsultationsScreen.initial)
    = [].
Proof. vm_compute. done. Qed.

(** ** Consultations of other people *)

(** A statement whose addressed rows all belong to another patient and
    are not assigned to the caller changes nothing, whatever it sets. *)
Lemma update_consultations_foreign now uid u cid db :
  (∀ r, r ∈ consultations db → Consultation.id r = cid →
        Consultation.patient_id r ≠ uid ∧ Consultation.doctor_id r ≠ Some uid) →
  update_consultations now uid u cid db = (db, None).
Proof.
  intros H. apply update_consultations_no_target. intros r Hr.
  destruct (decide (Consultation.id r = cid)) as [Hid|Hid].
  - destruct (H r Hr Hid). by apply update_target_foreign.
  - apply not_true_is_false. rewrite update_target_spec. tauto.
Qed.

(** C7 (as stated, refuted): Q requested consultation c1 as a patient and
    has since registered as a doctor; c1 is assigned to doctor D1. Q's
    start and Q's complete both go through, by the patients' update
    policy. *)
Lemma patient_of_the_row_starts_and_completes_it :
  let db := Sample.store_of [Sample.row "c1" "Q" (Some "D1") assigned None] in
  let started :=
    ConsultationsScreen.handleStartConsultation 20 21 Sample.Q "c1" db
      ConsultationsScreen.initial in
  let finished :=
    ConsultationsScreen.handleCompleteConsultation 30 31 Sample.Q "c1" started.1.1
      ConsultationsScreen.initial in
  ConsultationsScreen.isDoctor Sample.Q = true
  ∧ Consultation.doctor_id <$> consultations db = [Some "D1"]
  ∧ started.2 = []
  ∧ (λ r, (Consultation.status r, Consultation.started_at r))
      <$> consultations started.1.1 = [(in_progress, Some 21%Z)]
  ∧ finished.2 = [{| title := "Success"; message := "Consultation completed" |}]
  ∧ (λ r, (Consultation.status r, Consultation.completed_at r))
      <$> consultations finished.1.1 = [(completed, Some 31%Z)].
Proof. vm_compute. done. Qed.

(** C7 (amended): when every consultation with the given identity is
    assigned to somebody other than the caller and was requested by
    somebody other than the caller, the caller's start and complete leave
    the store as it is. *)
Theorem start_and_complete_spare_other_doctors_consultations
    now date s consultationId db st :
  (∀ r, r ∈ consultations db → Consultation.id r = consultationId →
        Consultation.patient_id r ≠ uid s
        ∧ ∃ d, Consultation.doctor_id r = Some d ∧ d ≠ uid s) →
  (ConsultationsScreen.handleStartConsultation now date s consultationId db st).1.1 = db
  ∧ (ConsultationsScreen.handleCompleteConsultation now date s consultationId db st).1.1
    = db.
Proof.
  intros H.
  rewrite handleStartConsultation_store, handleCompleteConsultation_store.
  rewrite !update_consultations_foreign; [done| |];
    intros r Hr Hid; destruct (H r Hr Hid) as (? & d & Hd & ?);
    (split; [done|]); rewrite Hd; congruence.
Qed.

Lemma start_and_complete_spare_other_doctors_consultations_witness :
  let db := Sample.store_of [Sample.row "c1" "P" (Some "D1") assigned None] in
  ConsultationsScreen.isDoctor Sample.D2 = true
  ∧ (ConsultationsScreen.handleStartConsultation 20 21 Sample.D2 "c1" db
       ConsultationsScreen.initial).1.1 = db
  ∧ (ConsultationsScreen.handleCompleteConsultation 20 21 Sample.D2 "c1" db
       ConsultationsScreen.initial).1.1 = db.
Proof.
  split; [reflexivity|].
  apply (start_and_complete_spare_other_doctors_consultations
           20 21 Sample.D2 "c1"
           (Sample.store_of [Sample.row "c1" "P" (Some "D1") assigned None])
           ConsultationsScreen.initial).
  intros r Hr _. apply list_elem_of_singleton in Hr as ->.
  split; [discriminate|]. exists "D1". split; [reflexivity|discriminate].
Defined.

(** ** Claiming *)

(** C1 (as stated, refuted): consultation c1 is in progress with doctor
    D1. D1's accept on it is not refused: the success alert is shown and
    the row is back to assigned. *)
Lemma accept_on_a_started_consultation_goes_through :
  let db := Sample.store_of [Sample.row "c1" "P" (Some "D1") in_progress (Some 15%Z)] in
  let out := ConsultationsScreen.handleAcceptConsultation 20 Sample.D1 "c1" db
               ConsultationsScreen.initial in
  Consultation.status <$> consultations db = [in_progress]
  ∧ out.2 = [{| title := "Success"; message := "Consultation accepted" |}]
  ∧ (λ r, (Consultation.doctor_id r, Consultation.status r))
      <$> consultations out.1.1 = [(Some "D1", assigned)].
Proof. vm_compute. done. Qed.

(** A doctor's accept on a pending request of somebody else, the case the
    button is meant for, finds no row either: the SELECT policy hides the
    row from the doctor, and an UPDATE that reads a column acts on rows
    the caller can select. The store reports no error, so the handler
    shows the success alert. *)
Remark accept_on_a_hidden_request_changes_nothing :
  let db := Sample.store_of [Sample.row "c1" "P" None pending None] in
  let out := ConsultationsScreen.handleAcceptConsultation 20 Sample.D1 "c1" db
               ConsultationsScreen.initial in
  out.1.1 = db
  ∧ out.2 = [{| title := "Success"; message := "Consultation accepted" |}].
Proof. vm_compute. done. Qed.

(** C1 (amended): when every consultation with the given identity already
    has a doctor other than the caller, and a patient other than the
    caller, the UPDATE statement that accept issues changes nothing and
    returns no error; the store after the handler is the store before it,
    and the handler shows the alert "Success", "Consultation accepted". *)
Theorem accept_spares_consultations_claimed_by_others now s consultationId db st :
  (∀ r, r ∈ consultations db → Consultation.id r = consultationId →
        Consultation.patient_id r ≠ uid s
        ∧ ∃ d, Consultation.doctor_id r = Some d ∧ d ≠ uid s) →
  let out := ConsultationsScreen.handleAcceptConsultation now s consultationId db st in
  update_consultations now (uid s) (ConsultationsScreen.accept_payload s)
    consultationId db = (db, None)
  ∧ out.1.1 = db
  ∧ out.2 = [{| title := "Success"; message := "Consultation accepted" |}].
Proof.
  intros H.
  assert (update_consultations now (uid s) (ConsultationsScreen.accept_payload s)
            consultationId db = (db, None)) as Hu.
  { apply update_consultations_foreign.
    intros r Hr Hid. destruct (H r Hr Hid) as (? & d & Hd & ?).
    split; [done|]. rewrite Hd. congruence. }
  simpl. unfold ConsultationsScreen.handleAcceptConsultation.
  by rewrite Hu.
Qed.

Lemma accept_spares_consultations_claimed_by_others_witness :
  let db := Sample.store_of [Sample.row "c1" "P" (Some "D1") assigned None] in
  let out := ConsultationsScreen.handleAcceptConsultation 20 Sample.D2 "c1" db
               ConsultationsScreen.initial in
  update_consultations 20 "D2" (ConsultationsScreen.accept_payload Sample.D2)
    "c1" db = (db, None)
  ∧ out.1.1 = db
  ∧ out.2 = [{| title := "Success"; message := "Consultation accepted" |}].
Proof.
  apply (accept_spares_consultations_claimed_by_others
           20 Sample.D2 "c1"
           (Sample.store_of [Sample.row "c1" "P" (Some "D1") assigned None])
           ConsultationsScreen.initial).
  intros r Hr _. apply list_elem_of_singleton in Hr as ->.
  split; [discriminate|]. exists "D1". split; [reflexivity|discriminate].
Defined.

(** ** Starting and completing *)

Lemma guard_needs_a_doctor_profile s :
  profile s = None → ConsultationsScreen.isDoctor s = false.
Proof. unfold ConsultationsScreen.isDoctor. by intros ->. Qed.

(** After a statement the store accepted, every row with the addressed
    identity that the caller can see is a row the statement wrote. *)
Lemma visible_rows_were_written now uid u cid db db' item :
  update_consultations now uid u cid db = (db', None) →
  ConsultationUpdate.id u = None →
  item ∈ consultations db' → select_using db' uid item = true →
  Consultation.id item = cid →
  ∃ r, r ∈ consultations db ∧ item = updated_row now u r.
Proof.
  intros H Hu Hin Hsel Hid.
  apply update_consultations_inv in H as [[_ [? [=]]]|(_ & -> & _)].
  simpl in Hin. apply list_elem_of_fmap in Hin as (r & -> & Hr).
  rewrite select_using_with_consultations in Hsel.
  unfold update_step in *. destruct (update_target db uid cid r) eqn:Ht; [eauto|].
  assert (update_target db uid cid r = true); [|congruence].
  apply update_target_spec. split; [done|]. by apply select_using_spec.
Qed.

(** What the Start and Complete guards say of the item: the wanted
    status, a doctor profile loaded, and that profile as the item's
    doctor. *)
Lemma card_guard s item (wanted : Status) :
  bool_decide (Consultation.status item = wanted)
  && ConsultationsScreen.isDoctor s
  && ConsultationsScreen.doctor_is_profile s item = true →
  Consultation.status item = wanted
  ∧ ∃ p, profile s = Some p ∧ Profile.user_type p = doctor
         ∧ Consultation.doctor_id item = Some (Profile.id p).
Proof.
  unfold ConsultationsScreen.isDoctor, ConsultationsScreen.doctor_is_profile.
  intros H. apply andb_true_iff in H as [H Hdoc].
  apply andb_true_iff in H as [Hst Hrole].
  apply bool_decide_eq_true in Hst. split; [done|].
  destruct (profile s) as [p|]; [|done].
  destruct (Consultation.doctor_id item) as [d|]; [|done].
  apply bool_decide_eq_true in Hrole. apply bool_decide_eq_true in Hdoc.
  exists p. by rewrite Hdoc.
Qed.

(** C2 (as stated, refuted): doctor D1 starts consultation c1, which is
    assigned to D1, twice in a row. The second call is not refused: no
    error alert is shown and [started_at] is overwritten. *)
Lemma second_start_goes_through :
  let db := Sample.store_of [Sample.row "c1" "P" (Some "D1") assigned None] in
  let first :=
    ConsultationsScreen.handleStartConsultation 20 21 Sample.D1 "c1" db
      ConsultationsScreen.initial in
  let second :=
    ConsultationsScreen.handleStartConsultation 30 31 Sample.D1 "c1" first.1.1
      first.1.2 in
  first.2 = []
  ∧ (λ r, (Consultation.status r, Consultation.started_at r))
      <$> consultations first.1.1 = [(in_progress, Some 21%Z)]
  ∧ second.2 = []
  ∧ (λ r, (Consultation.status r, Consultation.started_at r))
      <$> consultations second.1.1 = [(in_progress, Some 31%Z)].
Proof. vm_compute. done. Qed.

(** C2 (amended): the status precondition of start and complete lives in
    the card, not in the statement. A card offers Start only for an item
    listed as assigned to the caller and Complete only for one listed as
    in progress with the caller; after a start (complete) the store
    accepted, the refreshed list offers Start (Complete) for no item with
    that identity; and on consultations without a doctor, requested by
    somebody else, start and complete leave the store as it is. *)
Theorem start_and_complete_are_gated_by_the_card now date s consultationId db st :
  let started :=
    ConsultationsScreen.handleStartConsultation now date s consultationId db st in
  let finished :=
    ConsultationsScreen.handleCompleteConsultation now date s consultationId db st in
  (∀ item, ConsultationsScreen.isAssigned s item = true →
     Consultation.status item = assigned
     ∧ ∃ p, profile s = Some p ∧ Profile.user_type p = doctor
            ∧ Consultation.doctor_id item = Some (Profile.id p))
  ∧ (∀ item, ConsultationsScreen.isInProgress s item = true →
       Consultation.status item = in_progress
       ∧ ∃ p, profile s = Some p ∧ Profile.user_type p = doctor
              ∧ Consultation.doctor_id item = Some (Profile.id p))
  ∧ (started.2 = [] →
     ∀ item, item ∈ ConsultationsScreen.consultations started.1.2 →
       Consultation.id item = consultationId →
       ConsultationsScreen.isAssigned s item = false)
  ∧ (finished.2 = [{| title := "Success"; message := "Consultation completed" |}] →
     ∀ item, item ∈ ConsultationsScreen.consultations finished.1.2 →
       Consultation.id item = consultationId →
       ConsultationsScreen.isInProgress s item = false)
  ∧ ((∀ r, r ∈ consultations db → Consultation.id r = consultationId →
        Consultation.patient_id r ≠ uid s ∧ Consultation.doctor_id r = None) →
     started.1.1 = db ∧ finished.1.1 = db).
Proof.
  simpl. split; [|split; [|split; [|split]]].
  - intros item H. by apply card_guard in H.
  - intros item H. by apply card_guard in H.
  - unfold ConsultationsScreen.handleStartConsultation.
    destruct (update_consultations _ _ _ _ _) as [db' [e|]] eqn:Hup; simpl; [done|].
    intros _ item Hin Hid. unfold ConsultationsScreen.isAssigned.
    apply fetchConsultations_elem in Hin as [[Hp _]|[Hin Hsel]].
    { by rewrite (guard_needs_a_doctor_profile _ Hp), andb_false_r. }
    destruct (visible_rows_were_written _ _ _ _ _ _ _ Hup eq_refl Hin Hsel Hid)
      as (r & _ & ->).
    done.
  - unfold ConsultationsScreen.handleCompleteConsultation.
    destruct (update_consultations _ _ _ _ _) as [db' [e|]] eqn:Hup; simpl; [done|].
    intros _ item Hin Hid. unfold ConsultationsScreen.isInProgress.
    apply fetchConsultations_elem in Hin as [[Hp _]|[Hin Hsel]].
    { by rewrite (guard_needs_a_doctor_profile _ Hp), andb_false_r. }
    destruct (visible_rows_were_written _ _ _ _ _ _ _ Hup eq_refl Hin Hsel Hid)
      as (r & _ & ->).
    done.
  - intros H.
    rewrite handleStartConsultation_store, handleCompleteConsultation_store.
    rewrite !update_consultations_foreign; [done| |];
      intros r Hr Hid; destruct (H r Hr Hid) as [? ->]; done.
Qed.

Lemma start_and_complete_are_gated_by_the_card_witness :
  let db := Sample.store_of [Sample.row "c1" "P" (Some "D1") assigned None] in
  let pending_db := Sample.store_of [Sample.row "c1" "P" None pending None] in
  let started :=
    ConsultationsScreen.handleStartConsultation 20 21 Sample.D1 "c1" db
      ConsultationsScreen.initial in
  let finished :=
    ConsultationsScreen.handleCompleteConsultation 20 21 Sample.D1 "c1" db
      ConsultationsScreen.initial in
  (started.2 = []
   ∧ ∀ item, item ∈ ConsultationsScreen.consultations started.1.2 →
       Consultation.id item = "c1" →
       ConsultationsScreen.isAssigned Sample.D1 item = false)
  ∧ (finished.2 = [{| title := "Success"; message := "Consultation completed" |}]
     ∧ ∀ item, item ∈ ConsultationsScreen.consultations finished.1.2 →
         Consultation.id item = "c1" →
         ConsultationsScreen.isInProgress Sample.D1 item = false)
  ∧ (ConsultationsScreen.handleStartConsultation 20 21 Sample.D2 "c1" pending_db
       ConsultationsScreen.initial).1.1 = pending_db.
Proof.
  pose proof (start_and_complete_are_gated_by_the_card 20 21 Sample.D1 "c1"
    (Sample.store_of [Sample.row "c1" "P" (Some "D1") assigned None])
    ConsultationsScreen.initial) as (_ & _ & Hs & Hc & _).
  pose proof (start_and_complete_are_gated_by_the_card 20 21 Sample.D2 "c1"
    (Sample.store_of [Sample.row "c1" "P" None pending None])
    ConsultationsScreen.initial) as (_ & _ & _ & _ & Hu).
  split; [split; [reflexivity|apply Hs; reflexivity]|].
  split; [split; [reflexivity|apply Hc; reflexivity]|].
  apply Hu. intros r Hr _. apply list_elem_of_singleton in Hr as ->.
  split; [discriminate|reflexivity].
Defined.

(** ** Patients and the consultations of others *)

(** In a store where doctors rows belong to doctor profiles only, a
    caller whose role is patient owns no doctors row. *)
Lemma patient_has_no_doctor_row db caller :
  doctors_are_doctors db →
  has_role db caller patient = true →
  caller ∉ Doctor.id <$> doctors db.
Proof.
  intros Hdoctors Hrole Hin. apply list_elem_of_fmap in Hin as (d & Hid & Hd).
  apply sql_exists_elem in Hrole as (p & Hp).
  apply list_elem_of_filter in Hp as [[Hpid Hty] Hp].
  assert (Profile.user_type p = doctor) by (apply (Hdoctors d p); congruence).
  congruence.
Qed.

(** The policies tell a doctor by the doctors row, not by the role the
    profile records: what follows holds of every caller without such a
    row. *)
Section patient_caller.
Context (db : Store) (caller : uuid).
Hypothesis Hnone : caller ∉ Doctor.id <$> doctors db.

Lemma patient_select r :
  select_using db caller r = true → Consultation.patient_id r = caller.
Proof.
  intros H. apply select_using_spec in H as [H|[_ H]]; done.
Qed.

Lemma patient_target where_id r :
  update_target db caller where_id r = true → Consultation.patient_id r = caller.
Proof.
  intros H. apply update_target_spec in H as [_ [H|[_ H]]]; done.
Qed.

Lemma patient_check r :
  update_check db caller r = true → Consultation.patient_id r = caller.
Proof.
  intros H. apply update_check_spec in H as [H|[_ H]]; done.
Qed.

(** Row by row, what an UPDATE of a patient caller does: a row is either
    untouched, or it was the caller's and its new version still is. *)
Lemma patient_update_rows now u where_id :
  Forall2 (λ r r', r' = r
                   ∨ (Consultation.patient_id r = caller
                      ∧ Consultation.patient_id r' = caller))
    (consultations db)
    (consultations (update_consultations now caller u where_id db).1).
Proof.
  destruct (update_consultations now caller u where_id db) as [db' e] eqn:H.
  apply update_consultations_inv in H as [[-> _]|(_ & -> & Hall)]; simpl.
  { apply Forall_Forall2_diag, Forall_forall. by left. }
  apply Forall2_fmap_r, Forall_Forall2_diag, Forall_forall. intros r Hr. simpl.
  unfold update_step. destruct (update_target db caller where_id r) eqn:Ht; [|by left].
  right. split; [by eapply patient_target|].
  destruct (Hall r Hr Ht) as (Hc & _). by apply patient_check.
Qed.

End patient_caller.

(** C6 (as stated, refuted): the role is a column of the caller's own
    profiles row, and the policy "Users can update own profile" lets the
    caller rewrite it. D1, the doctor of consultation c1 of patient P,
    sets the own role to patient and keeps the doctors row. D1, now a
    caller with role patient, still reads c1 and cancels it. *)
Lemma former_doctor_reads_and_cancels_as_patient :
  let c1 := Sample.row "c1" "P" (Some "D1") assigned None in
  let switch := update_profiles 15 "D1" become_patient "D1" (Sample.store_of [c1]) in
  let db := switch.1 in
  let out := update_consultations 20 "D1" cancel_payload "c1" db in
  switch.2 = None
  ∧ has_role db "D1" patient = true
  ∧ has_role db "D1" doctor = false
  ∧ consultations db = [c1]
  ∧ Consultation.patient_id c1 ≠ "D1"
  ∧ select_using db "D1" c1 = true
  ∧ select_consultations db "D1" = [c1]
  ∧ out.2 = None
  ∧ (λ r, (Consultation.id r, Consultation.patient_id r, Consultation.status r))
      <$> consultations out.1 = [("c1", "P", cancelled)].
Proof. vm_compute. done. Qed.

(** C6 (amended): a caller whose role is patient and who owns no doctors
    row has no access to a consultation requested by somebody else. The
    SELECT policy hides every such row, and the caller's list query
    returns rows of the caller only. Whatever UPDATE the caller issues,
    for whichever identity and with whichever values (a cancel is an
    update of the status), every such row is afterwards what it was. An
    UPDATE addressed to an identity that only such rows carry is not
    refused: it changes nothing and returns no error. *)
Theorem patient_cannot_reach_consultations_of_others db caller :
  has_role db caller patient = true →
  caller ∉ Doctor.id <$> doctors db →
  (∀ r, Consultation.patient_id r ≠ caller → select_using db caller r = false)
  ∧ (∀ r, r ∈ select_consultations db caller → Consultation.patient_id r = caller)
  ∧ (∀ now u where_id,
       Forall2 (λ r r', Consultation.patient_id r ≠ caller → r' = r)
         (consultations db)
         (consultations (update_consultations now caller u where_id db).1))
  ∧ (∀ now u where_id,
       (∀ r, r ∈ consultations db → Consultation.id r = where_id →
             Consultation.patient_id r ≠ caller) →
       update_consultations now caller u where_id db = (db, None)).
Proof.
  intros _ Hnone. split; [|split; [|split]].
  - intros r Hr. apply not_true_is_false. intros H.
    by apply (patient_select _ _ Hnone) in H.
  - intros r Hr. apply list_elem_of_filter in Hr as [Hr _].
    by apply (patient_select db caller Hnone), Is_true_true.
  - intros now u where_id.
    eapply Forall2_impl; [by apply patient_update_rows|].
    intros r r' [->|[? _]]; done.
  - intros now u where_id Hothers. apply update_consultations_no_target.
    intros r Hr. apply not_true_is_false. intros Ht.
    assert (Consultation.id r = where_id) as Hid.
    { by apply update_target_spec in Ht as [? _]. }
    apply (Hothers r Hr Hid). by apply (patient_target db caller Hnone where_id).
Qed.

Lemma patient_cannot_reach_consultations_of_others_witness :
  let db := Sample.store_of [Sample.row "c1" "Q" (Some "D1") assigned None;
                             Sample.row "c2" "P" None pending None] in
  select_using db "P" (Sample.row "c1" "Q" (Some "D1") assigned None) = false
  ∧ Forall2 (λ r r', Consultation.patient_id r ≠ "P" → r' = r)
      (consultations db)
      (consultations
         (update_consultations 20 "P"
            (ConsultationsScreen.complete_payload 21) "c1" db).1)
  ∧ update_consultations 20 "P" cancel_payload "c1" db = (db, None).
Proof.
  pose proof (patient_cannot_reach_consultations_of_others
    (Sample.store_of [Sample.row "c1" "Q" (Some "D1") assigned None;
                      Sample.row "c2" "P" None pending None]) "P") as H.
  destruct H as (Hread & _ & Hwrite & Hnone).
  - reflexivity.
  - intros Hin.
    repeat (apply elem_of_cons in Hin as [Hin|Hin]; [discriminate|]).
    by apply elem_of_nil in Hin.
  - split; [apply Hread; discriminate|]. split; [apply Hwrite|].
    apply Hnone. intros r Hr Hid.
    repeat (apply elem_of_cons in Hr as [->|Hr]); try discriminate.
    by apply elem_of_nil in Hr.
Defined.

(** C5 (as stated, refuted): patient P owns the pending consultation c1.
    P's update of c1 that sets [doctor_id] and [status] passes the
    patients' update policy and is stored. *)
Lemma patient_update_sets_doctor_and_status :
  let db := Sample.store_of [Sample.row "c1" "P" None pending None] in
  let out := update_consultations 20 "P" Sample.doctor_and_status "c1" db in
  has_role db "P" patient = true
  ∧ patients_can_update_own_consultations "P" (Sample.row "c1" "P" None pending None)
    = true
  ∧ out.2 = None
  ∧ (λ r, (Consultation.patient_id r, Consultation.doctor_id r, Consultation.status r))
      <$> consultations out.1 = [("P", Some "D1", completed)].
Proof. vm_compute. done. Qed.

(** C5 (amended): the column the patients' update policy protects is
    [patient_id]. Whatever UPDATE is issued by a caller whose role is
    patient and who owns no doctors row, no consultation changes its
    patient. When the profile the session has loaded is a patient's, the
    client gives no way to update a consultation at all: none of the
    three buttons is shown on any item. *)
Theorem patient_update_keeps_the_patient db s :
  has_role db (uid s) patient = true →
  uid s ∉ Doctor.id <$> doctors db →
  HomeScreen.isPatient s = true →
  (∀ now u where_id,
     Forall2 (λ r r', Consultation.patient_id r' = Consultation.patient_id r)
       (consultations db)
       (consultations (update_consultations now (uid s) u where_id db).1))
  ∧ (∀ item, ConsultationsScreen.isPending s item = false
             ∧ ConsultationsScreen.isAssigned s item = false
             ∧ ConsultationsScreen.isInProgress s item = false).
Proof.
  intros _ Hnone Hpatient. split.
  - intros now u where_id.
    eapply Forall2_impl; [by apply patient_update_rows|].
    intros r r' [->|[-> ->]]; done.
  - assert (ConsultationsScreen.isDoctor s = false) as Hd.
    { unfold HomeScreen.isPatient in Hpatient. unfold ConsultationsScreen.isDoctor.
      destruct (profile s) as [p|]; [|done].
      apply bool_decide_eq_true in Hpatient. by rewrite Hpatient. }
    intros item.
    unfold ConsultationsScreen.isPending, ConsultationsScreen.isAssigned,
      ConsultationsScreen.isInProgress.
    by rewrite Hd, !andb_false_r.
Qed.

Lemma patient_update_keeps_the_patient_witness :
  let db := Sample.store_of [Sample.row "c1" "P" None pending None] in
  Forall2 (λ r r', Consultation.patient_id r' = Consultation.patient_id r)
    (consultations db)
    (consultations (update_consultations 20 "P" Sample.doctor_and_status "c1" db).1)
  ∧ ConsultationsScreen.isPending Sample.P (Sample.row "c1" "P" None pending None)
    = false.
Proof.
  pose proof (patient_update_keeps_the_patient
    (Sample.store_of [Sample.row "c1" "P" None pending None]) Sample.P) as H.
  destruct H as (Hwrite & Hcard).
  - reflexivity.
  - intros Hin.
    repeat (apply elem_of_cons in Hin as [Hin|Hin]; [discriminate|]).
    by apply elem_of_nil in Hin.
  - reflexivity.
  - split; [apply Hwrite|apply Hcard].
Defined.

(** ** Requesting a consultation *)

(** C8 (as stated, refuted on its last clause): the handler hands nothing
    about the new row back to its caller. Two requests that differ only
    in the identity the store generates end with the same form state, the
    same alert and the same completion. *)
Lemma request_returns_no_identity :
  let run new_id :=
    HomeScreen.handleRequestConsultation new_id 10 Sample.P
      (Sample.form "fever, chills") (Sample.store_of []) in
  Consultation.id <$> consultations (run "c1").1.1.1 = ["c1"]
  ∧ Consultation.id <$> consultations (run "c2").1.1.1 = ["c2"]
  ∧ ((run "c1").1.1.2, (run "c1").1.2, (run "c1").2)
    = ((run "c2").1.1.2, (run "c2").1.2, (run "c2").2)
  ∧ (run "c1").2 = returns.
Proof. vm_compute. done. Qed.

(** Pending and no doctor come from the handler's payload and the column
    defaults. The INSERT policy looks at [patient_id] and the caller's
    role only: it accepts a row a patient sends with another status and a
    doctor. *)
Remark insert_policy_does_not_force_pending :
  let i := {| ConsultationInsert.id := None;
              ConsultationInsert.patient_id := "P";
              ConsultationInsert.doctor_id := Some (Some "D1");
              ConsultationInsert.status := Some completed;
              ConsultationInsert.urgency_level := low;
              ConsultationInsert.symptoms := "cough";
              ConsultationInsert.notes := None;
              ConsultationInsert.scheduled_at := None;
              ConsultationInsert.started_at := None;
              ConsultationInsert.completed_at := None;
              ConsultationInsert.created_at := None;
              ConsultationInsert.updated_at := None |} in
  let out := insert_consultation "c1" 10 "P" i (Sample.store_of []) in
  out.2 = None
  ∧ (λ r, (Consultation.doctor_id r, Consultation.status r))
      <$> consultations out.1 = [(Some "D1", completed)].
Proof. vm_compute. done. Qed.

(** C8 (amended): a request that ends with the success alert has inserted
    exactly one row, as the last row of the table: its identity is the
    one the store generated, its patient is the caller, whose role is
    patient, its status is pending, it has no doctor, and its symptoms are
    the trimmed, non-empty text of the form. The handler's caller gets the
    cleared form and no value. *)
Theorem successful_request_inserts_one_pending_row new_id now s form db :
  let out := HomeScreen.handleRequestConsultation new_id now s form db in
  (∃ text, out.1.2 = [{| title := "Success"; message := text |}]) →
  (∃ r, consultations out.1.1.1 = (consultations db ++ [r])%list
        ∧ Consultation.id r = new_id
        ∧ Consultation.patient_id r = uid s
        ∧ Consultation.status r = pending
        ∧ Consultation.doctor_id r = None
        ∧ Consultation.symptoms r = trim (HomeScreen.symptoms form)
        ∧ Consultation.symptoms r ≠ ""
        ∧ Consultation.urgency_level r = HomeScreen.urgencyLevel form)
  ∧ profiles out.1.1.1 = profiles db
  ∧ doctors out.1.1.1 = doctors db
  ∧ has_role db (uid s) patient = true
  ∧ (new_id ∉ Consultation.id <$> consultations db)
  ∧ out.1.1.2 = {| HomeScreen.symptoms := ""; HomeScreen.urgencyLevel := medium;
                   HomeScreen.loading := false |}
  ∧ out.2 = returns.
Proof.
  simpl. unfold HomeScreen.handleRequestConsultation.
  case_bool_decide as Hblank; simpl; [by intros [? [=]]|].
  destruct (profile s) as [p|]; simpl; [|by intros [? [=]]].
  unfold insert_consultation.
  destruct (patients_can_create_consultations _ _ _) eqn:Hpol; simpl;
    [|by intros [? [=]]].
  case_bool_decide as Hdup; simpl; [by intros [? [=]]|].
  destruct (fk_patient _ _ && fk_doctor _ _); simpl; [|by intros [? [=]]].
  intros _. apply andb_true_iff in Hpol as [Hpid Hrole].
  apply bool_decide_eq_true in Hpid. simpl in Hpid, Hdup.
  repeat split; try done. eexists. repeat split; done.
Qed.

Lemma successful_request_inserts_one_pending_row_witness :
  let out := HomeScreen.handleRequestConsultation "c1" 10 Sample.P
               (Sample.form "  fever, chills ") (Sample.store_of []) in
  consultations out.1.1.1 = [Sample.row "c1" "P" None pending None]
  ∧ out.2 = returns.
Proof.
  pose proof (successful_request_inserts_one_pending_row "c1" 10 Sample.P
    (Sample.form "  fever, chills ") (Sample.store_of [])) as H.
  destruct H as (_ & _ & _ & _ & _ & _ & Hret).
  - eexists. reflexivity.
  - split; [reflexivity|exact Hret].
Defined.

(** ** The invariant along user actions *)





Section lifecycle_update.
Context (now : timestamptz) (uid : uuid) (u : ConsultationUpdate.t)
  (cid : uuid) (db : Store).
Hypothesis Hid : ConsultationUpdate.id u = None.

Lemma updated_row_id r : Consultation.id (updated_row now u r) = Consultation.id r.
Proof. unfold updated_row. simpl. by rewrite Hid. Qed.




Lemma update_rows_after r' :
  r' ∈ consultations (update_consultations now uid u cid db).1 →
  r' ∈ consultations db
  ∨ ∃ r, r ∈ consultations db ∧ Consultation.id r = cid ∧ r' = updated_row now u r.
Proof.
  destruct (update_consultations now uid u cid db) as [db' e] eqn:H.
  apply update_consultations_inv in H as [[-> _]|(_ & -> & _)]; simpl; [by left|].
  intros Hr'. apply list_elem_of_fmap in Hr' as (r & -> & Hr).
  unfold update_step. destruct (update_target db uid cid r) eqn:Ht; [|by left].
  right. exists r. apply update_target_spec in Ht as [? _]. done.
Qed.


End lifecycle_update.












(** A store without consultations, with every device's list empty, is a
    starting point. *)
Lemma fresh_world_invariant w :
  consultations (store w) = [] →
  (∀ c, ConsultationsScreen.consultations (screens w c) = []) →
  ui_invariant w.
Proof.
  intros Hdb Hscreens. unfold ui_invariant, listed_in. rewrite Hdb.
  split; [apply NoDup_nil_2|]. split.
  - intros r Hr. by apply elem_of_nil in Hr.
  - intros c item Hitem. rewrite Hscreens in Hitem. by apply elem_of_nil in Hitem.
Qed.




(** The condition on the lists is used: Q requested c1, which nobody has
    accepted. A card for c1 that shows Q as its doctor and the status
    assigned, which no query of this store returns, offers Start to Q,
    and that start leaves c1 in progress without a doctor. *)
Lemma start_from_a_card_the_store_never_held :
  let card := Sample.row "c1" "Q" (Some "Q") assigned None in
  let db := Sample.store_of [Sample.row "c1" "Q" None pending None] in
  let out := ConsultationsScreen.handleStartConsultation 20 21 Sample.Q "c1" db
               ConsultationsScreen.initial in
  ConsultationsScreen.isAssigned Sample.Q card = true
  ∧ (λ r, (Consultation.doctor_id r, Consultation.status r))
      <$> consultations out.1.1 = [(None, in_progress)].
Proof. vm_compute. done. Qed.

(** * Further properties of the code *)

(** ** The list of a screen *)

#[local] Instance newest_first_total : Total ConsultationsScreen.newest_first.
Proof. intros a b. unfold ConsultationsScreen.newest_first. lia. Qed.

#[local] Instance newest_first_transitive : Transitive ConsultationsScreen.newest_first.
Proof. intros a b c. unfold ConsultationsScreen.newest_first. lia. Qed.



(** ** The card *)

(** X2: a card shows at most one of the three buttons, and none to a
    session that has no doctor profile loaded. *)
Theorem card_shows_at_most_one_button s item :
  (List.length (Card.buttons s item)
   ≤ (if ConsultationsScreen.isDoctor s then 1 else 0))%nat.
Proof.
  unfold Card.buttons, ConsultationsScreen.isPending, ConsultationsScreen.isAssigned,
    ConsultationsScreen.isInProgress.
  destruct (ConsultationsScreen.isDoctor s);
    destruct (Consultation.status item); simpl;
    repeat match goal with
      | |- context [ConsultationsScreen.falsy ?x] =>
          destruct (ConsultationsScreen.falsy x)
      | |- context [ConsultationsScreen.doctor_is_profile ?a ?b] =>
          destruct (ConsultationsScreen.doctor_is_profile a b)
      end;
    simpl; lia.
Qed.

(** X3: the badge colours tell the values apart. Two statuses with the
    same colour are the same status, likewise two urgency levels; a text
    that is no status or no level gets the grey [#9ca3af], which no status
    and no level has. *)
Theorem badge_colours_tell_values_apart :
  (∀ a b, Card.getStatusColor (Card.status_text a)
          = Card.getStatusColor (Card.status_text b) → a = b)
  ∧ (∀ a b, Card.getUrgencyColor (Card.urgency_text a)
            = Card.getUrgencyColor (Card.urgency_text b) → a = b)
  ∧ (∀ t, (∀ a, t ≠ Card.status_text a) → Card.getStatusColor t = "#9ca3af")
  ∧ (∀ t, (∀ a, t ≠ Card.urgency_text a) → Card.getUrgencyColor t = "#9ca3af")
  ∧ (∀ a, Card.getStatusColor (Card.status_text a) ≠ "#9ca3af")
  ∧ (∀ a, Card.getUrgencyColor (Card.urgency_text a) ≠ "#9ca3af").
Proof.
  split; [intros [] []; vm_compute; congruence|].
  split; [intros [] []; vm_compute; congruence|].
  split.
  { intros t H. unfold Card.getStatusColor.
    repeat (case_bool_decide;
            [exfalso; first [by apply (H pending)|by apply (H assigned)
                            |by apply (H in_progress)|by apply (H completed)
                            |by apply (H cancelled)]|]).
    done. }
  split.
  { intros t H. unfold Card.getUrgencyColor.
    repeat (case_bool_decide;
            [exfalso; first [by apply (H low)|by apply (H medium)
                            |by apply (H high)|by apply (H critical)]|]).
    done. }
  split; intros []; vm_compute; congruence.
Qed.

Lemma badge_colours_tell_values_apart_witness :
  Card.getStatusColor "unknown" = "#9ca3af"
  ∧ Card.getUrgencyColor "urgent" = "#9ca3af".
Proof.
  destruct badge_colours_tell_values_apart as (_ & _ & Hs & Hu & _).
  split; [apply Hs|apply Hu]; intros []; discriminate.
Defined.

(** ** Statements on consultations, whatever they carry *)

(** The store after an INSERT: unchanged when refused, the new row at
    the end when accepted. *)
Lemma insert_consultation_store new_id now uid i db :
  match (insert_consultation new_id now uid i db).2 with
  | None =>
      (insert_consultation new_id now uid i db).1
      = with_consultations db (consultations db ++ [insert_row new_id now i])
  | Some _ => (insert_consultation new_id now uid i db).1 = db
  end.
Proof.
  unfold insert_consultation.
  destruct (patients_can_create_consultations _ _ _); simpl; [|done].
  case_bool_decide; simpl; [done|].
  by destruct (fk_patient _ _ && fk_doctor _ _).
Qed.

(** X4: an INSERT is for oneself and as a patient. Whatever the payload,
    when the store accepts it the new row's patient is the caller, the
    caller's role is patient, the identity was free, and the table is the
    old one with the new row at its end; when the store refuses it,
    nothing has changed. *)
Theorem insert_is_for_oneself_as_patient new_id now uid i db :
  let out := insert_consultation new_id now uid i db in
  match out.2 with
  | None =>
      ConsultationInsert.patient_id i = uid
      ∧ has_role db uid patient = true
      ∧ (Consultation.id (insert_row new_id now i)
         ∉ Consultation.id <$> consultations db)
      ∧ out.1 = with_consultations db
                  (consultations db ++ [insert_row new_id now i])
  | Some _ => out.1 = db
  end.
Proof.
  simpl. unfold insert_consultation.
  destruct (patients_can_create_consultations _ _ _) eqn:Hpol; simpl; [|done].
  case_bool_decide as Hdup; simpl; [done|].
  destruct (fk_patient _ _ && fk_doctor _ _); simpl; [|done].
  apply andb_true_iff in Hpol as [Hpid Hrole].
  apply bool_decide_eq_true in Hpid. done.
Qed.

(** X5: an UPDATE reaches the caller's own rows only, and cannot forge
    [updated_at]. Whatever the payload and the identity it addresses,
    every row is afterwards what it was, or it had the addressed
    identity, the caller was related to it (as its patient, or as its
    doctor and registered) and still is related to the new row, whose
    [updated_at] is the store's time. *)
Theorem update_writes_related_rows_only now uid u where_id db :
  Forall2 (λ r r', r' = r
                   ∨ (Consultation.id r = where_id
                      ∧ related db uid r ∧ related db uid r'
                      ∧ Consultation.updated_at r' = now))
    (consultations db)
    (consultations (update_consultations now uid u where_id db).1).
Proof.
  destruct (update_consultations now uid u where_id db) as [db' e] eqn:H.
  apply update_consultations_inv in H as [[-> _]|(_ & -> & Hall)]; simpl.
  { apply Forall_Forall2_diag, Forall_forall. by left. }
  apply Forall2_fmap_r, Forall_Forall2_diag, Forall_forall. intros r Hr. simpl.
  unfold update_step. destruct (update_target db uid where_id r) eqn:Ht; [|by left].
  right. destruct (Hall r Hr Ht) as (Hc & _).
  apply update_target_spec in Ht as [? ?]. apply update_check_spec in Hc. done.
Qed.

Lemma fk_patient_same db r r' :
  Consultation.patient_id r' = Consultation.patient_id r →
  fk_patient db r' = fk_patient db r.
Proof. unfold fk_patient. by intros ->. Qed.

Lemma fk_doctor_same db r r' :
  Consultation.doctor_id r' = Consultation.doctor_id r →
  fk_doctor db r' = fk_doctor db r.
Proof. unfold fk_doctor. by intros ->. Qed.

Lemma fk_update_keeps db r r' :
  fk_patient db r = true → fk_doctor db r = true → fk_update db r r' = true →
  fk_patient db r' = true ∧ fk_doctor db r' = true.
Proof.
  intros Hp Hd H. unfold fk_update in H.
  apply andb_true_iff in H as [H1 H2].
  split.
  - apply orb_true_iff in H1 as [H1|H1]; [|done].
    apply bool_decide_eq_true in H1. by rewrite (fk_patient_same _ _ _ H1).
  - apply orb_true_iff in H2 as [H2|H2]; [|done].
    apply bool_decide_eq_true in H2. by rewrite (fk_doctor_same _ _ _ H2).
Qed.

(** An accepted UPDATE keeps identities unique: either no written row
    changed its identity, or the uniqueness check passed. *)
Lemma update_consultations_unique now uid u where_id db :
  NoDup (Consultation.id <$> consultations db) →
  NoDup (Consultation.id <$> consultations (update_consultations now uid u where_id db).1).
Proof.
  intros Hnd. unfold update_consultations.
  destruct (forallb _ _); simpl; [|done].
  destruct (forallb (λ r, bool_decide (_ = _)) _) eqn:Hsame; simpl.
  - destruct (forallb (λ r, fk_update _ _ _) _); simpl; [|done].
    rewrite <- list_fmap_compose.
    rewrite (list_fmap_ext _ Consultation.id (consultations db)); [done|].
    intros k r Hk. simpl. unfold update_step.
    destruct (update_target db uid where_id r) eqn:Ht; [|done].
    rewrite forallb_forall in Hsame.
    assert (r ∈ filter (λ r, update_target db uid where_id r) (consultations db))
      as Hin.
    { apply list_elem_of_filter. split; [by apply Is_true_true|].
      by eapply list_elem_of_lookup_2. }
    apply list_elem_of_In, Hsame, bool_decide_eq_true in Hin. exact Hin.
  - case_bool_decide as Hnd'; simpl; [|done].
    destruct (forallb (λ r, fk_update _ _ _) _); simpl; done.
Qed.

(** X6: the statements keep the table well formed. If identities are
    unique and every consultation's patient and doctor exist, then the
    same holds after any UPDATE and after any INSERT, accepted or not; so
    it holds after each of the four handlers. *)
Theorem statements_keep_the_table_well_formed now uid db :
  well_formed db →
  (∀ u where_id, well_formed (update_consultations now uid u where_id db).1)
  ∧ (∀ new_id i, well_formed (insert_consultation new_id now uid i db).1).
Proof.
  intros [Hnd Hfk]. split.
  - intros u where_id. split; [by apply update_consultations_unique|].
    destruct (update_consultations now uid u where_id db) as [db' e] eqn:H.
    apply update_consultations_inv in H as [[-> _]|(_ & -> & Hall)]; simpl; [done|].
    intros r' Hr'. apply list_elem_of_fmap in Hr' as (r & -> & Hr).
    destruct (Hfk r Hr) as [Hp Hd]. unfold update_step.
    destruct (update_target db uid where_id r) eqn:Ht; [|done].
    destruct (Hall r Hr Ht) as (_ & _ & Hfku).
    by apply (fk_update_keeps db r).
  - intros new_id i. unfold insert_consultation.
    destruct (patients_can_create_consultations _ _ _); simpl; [|done].
    case_bool_decide as Hdup; simpl; [done|].
    destruct (fk_patient _ _ && fk_doctor _ _) eqn:Hnew; simpl; [|done].
    apply andb_true_iff in Hnew as [Hp Hd]. split; simpl.
    + rewrite fmap_app. apply NoDup_app. split; [done|].
      split; [|apply NoDup_singleton].
      intros x Hx Hx'. apply list_elem_of_singleton in Hx' as ->. done.
    + intros r Hr. apply elem_of_app in Hr as [Hr|Hr]; [by apply Hfk|].
      apply list_elem_of_singleton in Hr as ->. done.
Qed.

Lemma statements_keep_the_table_well_formed_witness :
  let db := Sample.store_of [Sample.row "c1" "P" (Some "D1") assigned None] in
  well_formed
    (ConsultationsScreen.handleStartConsultation 20 21 Sample.D1 "c1" db
       ConsultationsScreen.initial).1.1
  ∧ well_formed
      (HomeScreen.handleRequestConsultation "c2" 30 Sample.P
         (Sample.form "cough") db).1.1.1.
Proof.
  assert (well_formed
            (Sample.store_of [Sample.row "c1" "P" (Some "D1") assigned None])) as Hwf.
  { split; [apply NoDup_singleton|].
    intros r Hr. apply list_elem_of_singleton in Hr as ->. by vm_compute. }
  split.
  - rewrite handleStartConsultation_store.
    apply (proj1 (statements_keep_the_table_well_formed 20 "D1" _ Hwf)).
  - exact (proj2 (statements_keep_the_table_well_formed 30 "P" _ Hwf) "c2"
             (HomeScreen.request_payload (Sample.profile_of "P" patient)
                (Sample.form "cough"))).
Defined.

(** ** Requests *)

Lemma trim_start_clean s :
  match s with
  | EmptyString => True
  | String c _ => is_white_space c = false
  end →
  trim_start s = s.
Proof. destruct s as [|c s]; simpl; [done|]. by intros ->. Qed.

Lemma trim_start_starts_clean s :
  match trim_start s with
  | EmptyString => True
  | String c _ => is_white_space c = false
  end.
Proof.
  induction s as [|c s IH]; simpl; [done|].
  destruct (is_white_space c) eqn:Hc; [done|]. simpl. done.
Qed.

Lemma trim_end_starts_clean s :
  match s with
  | EmptyString => True
  | String c _ => is_white_space c = false
  end →
  match trim_end s with
  | EmptyString => True
  | String c _ => is_white_space c = false
  end.
Proof.
  destruct s as [|c s]; simpl; [done|]. intros Hc.
  destruct (trim_end s); [by rewrite Hc|done].
Qed.

Lemma trim_end_idempotent s : trim_end (trim_end s) = trim_end s.
Proof.
  induction s as [|c s IH]; simpl; [done|].
  destruct (trim_end s) as [|d t] eqn:Ht.
  - destruct (is_white_space c) eqn:Hc; simpl; [done|]. by rewrite Hc.
  - simpl in *. by rewrite IH.
Qed.

(** Trimming a trimmed text changes nothing. *)
Lemma trim_idempotent s : trim (trim s) = trim s.
Proof.
  unfold trim.
  rewrite (trim_start_clean (trim_end (trim_start s))).
  - apply trim_end_idempotent.
  - apply trim_end_starts_clean, trim_start_starts_clean.
Qed.

(** The four ways a request ends. *)
Lemma handleRequestConsultation_cases new_id now s form db :
  let out := HomeScreen.handleRequestConsultation new_id now s form db in
  (trim (HomeScreen.symptoms form) = ""
   ∧ out = (db, form,
            [{| title := "Error"; message := "Please describe your symptoms" |}],
            returns))
  ∨ (trim (HomeScreen.symptoms form) ≠ "" ∧ profile s = None
     ∧ out = (db,
              {| HomeScreen.symptoms := HomeScreen.symptoms form;
                 HomeScreen.urgencyLevel := HomeScreen.urgencyLevel form;
                 HomeScreen.loading := true |},
              [], throws))
  ∨ (trim (HomeScreen.symptoms form) ≠ ""
     ∧ (∃ p e, profile s = Some p
               ∧ insert_consultation new_id now (uid s)
                   (HomeScreen.request_payload p form) db = (db, Some e))
     ∧ out = (db,
              {| HomeScreen.symptoms := HomeScreen.symptoms form;
                 HomeScreen.urgencyLevel := HomeScreen.urgencyLevel form;
                 HomeScreen.loading := false |},
              [{| title := "Error";
                  message := "Failed to request consultation. Please try again." |}],
              returns))
  ∨ (trim (HomeScreen.symptoms form) ≠ ""
     ∧ ∃ p, profile s = Some p
            ∧ out = (with_consultations db
                       (consultations db
                        ++ [insert_row new_id now (HomeScreen.request_payload p form)]),
                     {| HomeScreen.symptoms := ""; HomeScreen.urgencyLevel := medium;
                        HomeScreen.loading := false |},
                     [{| title := "Success";
                         message := "Your consultation request has been submitted. A doctor will be assigned shortly." |}],
                     returns)).
Proof.
  simpl. unfold HomeScreen.handleRequestConsultation.
  case_bool_decide as Hblank; [by left|]. right.
  destruct (profile s) as [p|]; [|by left]. right.
  pose proof (insert_consultation_store new_id now (uid s)
                (HomeScreen.request_payload p form) db) as Hins.
  destruct (insert_consultation _ _ _ _ _) as [db' [e|]] eqn:Hi; simpl in Hins.
  - subst db'. left. split; [done|]. split; [by exists p, e|done].
  - subst db'. right. split; [done|]. by exists p.
Qed.

(** X7: a request changes the store exactly when it shows the success
    alert. Then one row was appended and the form is cleared. Otherwise
    the store is as before and the form keeps its text; an alert is shown
    unless the call threw, which it does exactly when the text is not
    blank and no profile is loaded, leaving the spinner on. *)
Theorem request_reports_what_happened new_id now s form db :
  let out := HomeScreen.handleRequestConsultation new_id now s form db in
  let success :=
    [{| title := "Success";
        message := "Your consultation request has been submitted. A doctor will be assigned shortly." |}] in
  (out.1.2 = success
   ∧ (∃ r, consultations out.1.1.1 = (consultations db ++ [r])%list)
   ∧ HomeScreen.symptoms out.1.1.2 = ""
   ∧ HomeScreen.loading out.1.1.2 = false
   ∧ out.2 = returns)
  ∨ (out.1.2 ≠ success
     ∧ out.1.1.1 = db
     ∧ HomeScreen.symptoms out.1.1.2 = HomeScreen.symptoms form
     ∧ (out.2 = throws
        ↔ trim (HomeScreen.symptoms form) ≠ "" ∧ profile s = None)
     ∧ (out.2 = throws → out.1.2 = [] ∧ HomeScreen.loading out.1.1.2 = true)
     ∧ (out.2 = returns → ∃ text, out.1.2 = [{| title := "Error"; message := text |}])).
Proof.
  simpl.
  destruct (handleRequestConsultation_cases new_id now s form db)
    as [[Hb ->]|[(Hb & Hp & ->)|[(Hb & (p & e & Hp & _) & ->)|(Hb & p & Hp & ->)]]];
    simpl.
  - right. repeat split; try done; eauto. by intros [].
  - right. repeat split; try done.
  - right. repeat split; try done; eauto. intros [_ ?]. congruence.
  - left. eauto 10.
Qed.

(** ** Along the actions of the client *)

(** Where the rows after an action come from: a row that was there, a row
    one of the three lifecycle payloads rewrote, or the row of an accepted
    request. *)
Lemma ui_step_rows w w' r' :
  ui_step w w' → r' ∈ consultations (store w') →
  r' ∈ consultations (store w)
  ∨ (∃ r now u, r ∈ consultations (store w) ∧ r' = updated_row now u r
        ∧ ((∃ s, u = ConsultationsScreen.accept_payload s)
           ∨ (∃ date, u = ConsultationsScreen.start_payload date)
           ∨ (∃ date, u = ConsultationsScreen.complete_payload date)))
  ∨ (∃ new_id now p form,
        r' = insert_row new_id now (HomeScreen.request_payload p form)
        ∧ trim (HomeScreen.symptoms form) ≠ "").
Proof.
  intros Hstep.
  destruct Hstep as [ps ds w|c s w|new_id now s form w Hpat|c now s item w Hitem Hguard
                     |c now date s item w Hitem Hguard|c now date s item w Hitem Hguard];
    cbv zeta; simpl.
  - by left.
  - by left.
  - destruct (handleRequestConsultation_cases new_id now s form (store w))
      as [[Hb ->]|[(Hb & Hp & ->)|[(Hb & _ & ->)|(Hb & p & Hp & ->)]]];
      simpl; try by left.
    intros Hr'. apply elem_of_app in Hr' as [?|Hr']; [by left|].
    apply list_elem_of_singleton in Hr' as ->. right. right. eauto 10.
  - rewrite handleAcceptConsultation_store. intros Hr'.
    apply update_rows_after in Hr' as [?|(r & Hr & _ & ->)]; [by left|].
    right. left. exists r, now. eauto 10.
  - rewrite handleStartConsultation_store. intros Hr'.
    apply update_rows_after in Hr' as [?|(r & Hr & _ & ->)]; [by left|].
    right. left. exists r, now. eauto 10.
  - rewrite handleCompleteConsultation_store. intros Hr'.
    apply update_rows_after in Hr' as [?|(r & Hr & _ & ->)]; [by left|].
    right. left. exists r, now. eauto 10.
Qed.

Lemma ui_step_fixed_columns w w' :
  ui_step w w' →
  fixed_columns <$> consultations (store w)
  `prefix_of` fixed_columns <$> consultations (store w').
Proof.
  intros Hstep.
  destruct Hstep as [ps ds w|c s w|new_id now s form w Hpat|c now s item w Hitem Hguard
                     |c now date s item w Hitem Hguard|c now date s item w Hitem Hguard];
    cbv zeta; simpl; try done.
  - destruct (handleRequestConsultation_cases new_id now s form (store w))
      as [[Hb ->]|[(Hb & Hp & ->)|[(Hb & _ & ->)|(Hb & p & Hp & ->)]]];
      simpl; try done.
    rewrite fmap_app. by apply prefix_app_r.
  - rewrite handleAcceptConsultation_store.
    by destruct (update_consultations_frame fixed_columns now (uid s)
                   (ConsultationsScreen.accept_payload s) (Consultation.id item) (store w))
      as (_ & _ & ->).
  - rewrite handleStartConsultation_store.
    by destruct (update_consultations_frame fixed_columns now (uid s)
                   (ConsultationsScreen.start_payload date) (Consultation.id item)
                   (store w))
      as (_ & _ & ->).
  - rewrite handleCompleteConsultation_store.
    by destruct (update_consultations_frame fixed_columns now (uid s)
                   (ConsultationsScreen.complete_payload date) (Consultation.id item)
                   (store w))
      as (_ & _ & ->).
Qed.

(** X8: the client only ever appends consultations, and never rewrites
    what a request recorded. Along its actions the table keeps every row
    in place, with the identity, patient, urgency, symptoms, notes,
    schedule and creation time it had; new rows come after the old
    ones. *)
Theorem client_actions_only_append w w' :
  rtc ui_step w w' →
  fixed_columns <$> consultations (store w)
  `prefix_of` fixed_columns <$> consultations (store w').
Proof.
  induction 1 as [|w1 w2 w3 Hstep _ IH]; [done|].
  etrans; [by apply ui_step_fixed_columns|done].
Qed.

Lemma client_actions_only_append_witness :
  let w0 := {| store := Sample.store_of [Sample.row "c1" "P" (Some "D1") assigned None];
               screens := λ _, ConsultationsScreen.initial |} in
  ∃ w, rtc ui_step w0 w
       ∧ Consultation.id <$> consultations (store w) = ["c1"; "c2"]
       ∧ fixed_columns <$> consultations (store w0)
         `prefix_of` fixed_columns <$> consultations (store w).
Proof.
  intros w0.
  assert (∃ w, rtc ui_step w0 w
               ∧ Consultation.id <$> consultations (store w) = ["c1"; "c2"])
    as (w & Hsteps & Hids).
  { eexists. split.
    - eapply rtc_l; [apply (ui_fetch 0 Sample.D1)|].
      eapply rtc_l.
      { apply (ui_start 0 20 21 Sample.D1
                 (Sample.row "c1" "P" (Some "D1") assigned None));
          [vm_compute; by left|reflexivity]. }
      eapply rtc_l.
      { apply (ui_request "c2" 30 Sample.P (Sample.form "cough")). reflexivity. }
      apply rtc_refl.
    - reflexivity. }
  exists w. split; [done|]. split; [done|].
  apply (client_actions_only_append w0 w Hsteps).
Defined.

(** X9: what the client stores as symptoms is trimmed and not empty, and
    stays so: if every row has symptoms that trimming leaves alone and
    that are not empty, the same holds after any actions of the client. *)
Theorem client_actions_keep_symptoms_clean w w' :
  (∀ r, r ∈ consultations (store w) → clean_symptoms r) →
  rtc ui_step w w' →
  ∀ r, r ∈ consultations (store w') → clean_symptoms r.
Proof.
  intros H0 Hsteps. induction Hsteps as [|w1 w2 w3 Hstep _ IH]; [done|].
  apply IH. intros r' Hr'.
  apply (ui_step_rows _ _ _ Hstep) in Hr'
    as [?|[(r & now & u & Hr & -> & Hu)|(new_id & now & p & form & -> & Hb)]].
  - by apply H0.
  - destruct (H0 r Hr) as [Ht Hne]. unfold clean_symptoms.
    destruct Hu as [[s ->]|[[date ->]|[date ->]]]; done.
  - unfold clean_symptoms. simpl. split; [apply trim_idempotent|done].
Qed.

Lemma client_actions_keep_symptoms_clean_witness :
  let w0 := {| store := Sample.store_of [];
               screens := λ _, ConsultationsScreen.initial |} in
  ∃ w, rtc ui_step w0 w
       ∧ Consultation.symptoms <$> consultations (store w) = ["fever, chills"]
       ∧ ∀ r, r ∈ consultations (store w) → clean_symptoms r.
Proof.
  intros w0.
  assert (∃ w, rtc ui_step w0 w
               ∧ Consultation.symptoms <$> consultations (store w) = ["fever, chills"])
    as (w & Hsteps & Hs).
  { eexists. split.
    - eapply rtc_l; [|apply rtc_refl].
      apply (ui_request "c1" 10 Sample.P (Sample.form "  fever, chills ")).
      reflexivity.
    - reflexivity. }
  exists w. split; [done|]. split; [done|].
  apply (client_actions_keep_symptoms_clean w0 w); [|done].
  intros r Hr. by apply elem_of_nil in Hr.
Defined.

(** X10: the client never cancels. If no consultation is cancelled, none
    is after any actions of the client. *)
Theorem client_actions_never_cancel w w' :
  (∀ r, r ∈ consultations (store w) → Consultation.status r ≠ cancelled) →
  rtc ui_step w w' →
  ∀ r, r ∈ consultations (store w') → Consultation.status r ≠ cancelled.
Proof.
  intros H0 Hsteps. induction Hsteps as [|w1 w2 w3 Hstep _ IH]; [done|].
  apply IH. intros r' Hr'.
  apply (ui_step_rows _ _ _ Hstep) in Hr'
    as [?|[(r & now & u & Hr & -> & Hu)|(new_id & now & p & form & -> & Hb)]].
  - by apply H0.
  - destruct Hu as [[s ->]|[[date ->]|[date ->]]]; done.
  - done.
Qed.

Lemma client_actions_never_cancel_witness :
  let w0 := {| store := Sample.store_of [Sample.row "c1" "P" (Some "D1") assigned None];
               screens := λ _, ConsultationsScreen.initial |} in
  ∃ w, rtc ui_step w0 w
       ∧ Consultation.status <$> consultations (store w) = [in_progress]
       ∧ ∀ r, r ∈ consultations (store w) → Consultation.status r ≠ cancelled.
Proof.
  intros w0.
  assert (∃ w, rtc ui_step w0 w
               ∧ Consultation.status <$> consultations (store w) = [in_progress])
    as (w & Hsteps & Hs).
  { eexists. split.
    - eapply rtc_l; [apply (ui_fetch 0 Sample.D1)|].
      eapply rtc_l; [|apply rtc_refl].
      apply (ui_start 0 20 21 Sample.D1
               (Sample.row "c1" "P" (Some "D1") assigned None));
        [vm_compute; by left|reflexivity].
    - reflexivity. }
  exists w. split; [done|]. split; [done|].
  apply (client_actions_never_cancel w0 w); [|done].
  intros r Hr. apply list_elem_of_singleton in Hr as ->. done.
Defined.

(** ** Timestamps *)








(** ** Accepting *)

(** X12: accept claims for the profile of the session and for nobody
    else. With a profile loaded, every row is after the handler what it
    was, or it had the given identity and is now assigned to the
    profile's identity; and that identity is the caller's own unless the
    caller is the row's patient. *)
Theorem accept_claims_for_the_callers_profile now s p consultationId db st :
  profile s = Some p →
  Forall2 (λ r r', r' = r
                   ∨ (Consultation.id r = consultationId
                      ∧ Consultation.status r' = assigned
                      ∧ Consultation.doctor_id r' = Some (Profile.id p)
                      ∧ (Profile.id p = uid s ∨ Consultation.patient_id r = uid s)))
    (consultations db)
    (consultations
       (ConsultationsScreen.handleAcceptConsultation now s consultationId db st).1.1).
Proof.
  intros Hp. rewrite handleAcceptConsultation_store.
  destruct (update_consultations now (uid s) (ConsultationsScreen.accept_payload s)
              consultationId db) as [db' e] eqn:H.
  apply update_consultations_inv in H as [[-> _]|(_ & -> & Hall)]; simpl.
  { apply Forall_Forall2_diag, Forall_forall. by left. }
  apply Forall2_fmap_r, Forall_Forall2_diag, Forall_forall. intros r Hr. simpl.
  unfold update_step.
  destruct (update_target db (uid s) consultationId r) eqn:Ht; [|by left].
  right. destruct (Hall r Hr Ht) as (Hc & _).
  apply update_target_spec in Ht as [Hid _].
  apply update_check_spec in Hc. revert Hc.
  unfold updated_row, ConsultationsScreen.accept_payload. rewrite Hp. simpl.
  intros [Hc|[[= Hc] _]]; eauto.
Qed.

Lemma accept_claims_for_the_callers_profile_witness :
  let db := Sample.store_of [Sample.row "c1" "Q" None pending None] in
  let db' := (ConsultationsScreen.handleAcceptConsultation 20 Sample.Q "c1" db
                ConsultationsScreen.initial).1.1 in
  (λ r, (Consultation.doctor_id r, Consultation.status r)) <$> consultations db'
  = [(Some "Q", assigned)]
  ∧ Forall2 (λ r r', r' = r
                     ∨ (Consultation.id r = "c1"
                        ∧ Consultation.status r' = assigned
                        ∧ Consultation.doctor_id r' = Some "Q"
                        ∧ ("Q" = "Q" ∨ Consultation.patient_id r = "Q")))
      (consultations db) (consultations db').
Proof.
  split; [reflexivity|].
  apply (accept_claims_for_the_callers_profile 20 Sample.Q
           (Sample.profile_of "Q" doctor) "c1"
           (Sample.store_of [Sample.row "c1" "Q" None pending None])
           ConsultationsScreen.initial).
  reflexivity.
Defined.

(** ** Profiles and doctors *)

Lemma update_profiles_rows now uid u where_id db :
  doctors (update_profiles now uid u where_id db).1 = doctors db
  ∧ consultations (update_profiles now uid u where_id db).1 = consultations db
  ∧ Forall2 (λ p p', p' = p
                     ∨ (Profile.id p = uid ∧ Profile.id p = where_id
                        ∧ p' = updated_profile now u p ∧ Profile.id p' = uid))
      (profiles db) (profiles (update_profiles now uid u where_id db).1).
Proof.
  unfold update_profiles.
  destruct (forallb _ _) eqn:Hrls; simpl.
  2: { split; [done|]. split; [done|].
       apply Forall_Forall2_diag, Forall_forall. by left. }
  destruct (negb (forallb _ _) && _); simpl.
  { split; [done|]. split; [done|].
    apply Forall_Forall2_diag, Forall_forall. by left. }
  split; [done|]. split; [done|].
  apply Forall2_fmap_r, Forall_Forall2_diag, Forall_forall. intros p Hp. simpl.
  destruct (profile_target uid where_id p) eqn:Ht; [|by left]. right.
  rewrite forallb_forall in Hrls.
  assert (p ∈ filter (λ p, profile_target uid where_id p) (profiles db)) as Hin.
  { apply list_elem_of_filter. split; [by apply Is_true_true|done]. }
  apply list_elem_of_In, Hrls, andb_true_iff in Hin as [Hc _].
  apply bool_decide_eq_true in Hc.
  unfold profile_target in Ht. apply andb_true_iff in Ht as [Ht Hu].
  apply andb_true_iff in Ht as [Hw _].
  apply bool_decide_eq_true in Hw. apply bool_decide_eq_true in Hu. done.
Qed.

Lemma update_doctors_inv now uid u where_id db db' e :
  update_doctors now uid u where_id db = (db', e) →
  (db' = db ∧ is_Some e)
  ∨ (e = None
     ∧ db' = with_doctors db
               ((λ d, if doctor_target uid where_id d then updated_doctor now u d else d)
                  <$> doctors db)
     ∧ ∀ d, d ∈ doctors db → doctor_target uid where_id d = true →
         Doctor.id (updated_doctor now u d) = uid).
Proof.
  unfold update_doctors.
  destruct (forallb _ _) eqn:Hrls; simpl; [|intros [= <- <-]; left; eauto].
  destruct (negb (forallb _ _) && _); [intros [= <- <-]; left; eauto|].
  destruct (negb (forallb _ _) && _); [intros [= <- <-]; left; eauto|].
  destruct (forallb (λ d, bool_decide _ || bool_decide _) _); simpl;
    [|intros [= <- <-]; left; eauto].
  intros [= <- <-]. right. split; [done|]. split; [done|].
  intros d Hd Ht. rewrite forallb_forall in Hrls.
  assert (d ∈ filter (λ d, doctor_target uid where_id d) (doctors db)) as Hin.
  { apply list_elem_of_filter. split; [by apply Is_true_true|done]. }
  apply list_elem_of_In, Hrls, andb_true_iff in Hin as [Hc _].
  by apply bool_decide_eq_true in Hc.
Qed.

Lemma doctor_target_spec uid where_id d :
  doctor_target uid where_id d = true ↔ Doctor.id d = where_id ∧ Doctor.id d = uid.
Proof.
  unfold doctor_target, anyone_can_view_doctor_profiles, doctors_can_update_own_profile.
  rewrite !andb_true_iff, !bool_decide_eq_true.
  intuition congruence.
Qed.

Lemma update_doctors_rows now uid u where_id db :
  profiles (update_doctors now uid u where_id db).1 = profiles db
  ∧ consultations (update_doctors now uid u where_id db).1 = consultations db
  ∧ Forall2 (λ d d', d' = d ∨ (Doctor.id d = uid ∧ Doctor.id d' = uid))
      (doctors db) (doctors (update_doctors now uid u where_id db).1).
Proof.
  destruct (update_doctors now uid u where_id db) as [db' e] eqn:H.
  apply update_doctors_inv in H as [[-> _]|(_ & -> & Hall)]; simpl.
  { split; [done|]. split; [done|].
    apply Forall_Forall2_diag, Forall_forall. by left. }
  split; [done|]. split; [done|].
  apply Forall2_fmap_r, Forall_Forall2_diag, Forall_forall. intros d Hd. simpl.
  destruct (doctor_target uid where_id d) eqn:Ht; [|by left]. right.
  split; [by apply doctor_target_spec in Ht as [_ ?]|by apply Hall].
Qed.

Lemma insert_doctor_inv now uid i db db' e :
  insert_doctor now uid i db = (db', e) →
  (db' = db ∧ is_Some e)
  ∨ (e = None
     ∧ db' = with_doctors db (doctors db ++ [inserted_doctor now i])
     ∧ DoctorInsert.id i = uid
     ∧ has_role db uid doctor = true
     ∧ (DoctorInsert.id i ∉ Doctor.id <$> doctors db)).
Proof.
  unfold insert_doctor.
  destruct (doctors_can_insert_own_profile _ _ _) eqn:Hpol; simpl;
    [|intros [= <- <-]; left; eauto].
  destruct (bool_decide _ || bool_decide _) eqn:Hdup;
    [intros [= <- <-]; left; eauto|].
  destruct (bool_decide (_ ∈ Profile.id <$> _)); simpl;
    [|intros [= <- <-]; left; eauto].
  intros [= <- <-]. right.
  apply andb_true_iff in Hpol as [Hid Hrole]. apply bool_decide_eq_true in Hid.
  apply orb_false_iff in Hdup as [Hdup _]. apply bool_decide_eq_false in Hdup.
  done.
Qed.

(** Rows of other people pass through a statement that rewrites rows of
    [uid] only. *)
Lemma filter_others {A} (f : A → uuid) (uid : uuid) (l k : list A) :
  Forall2 (λ x y, y = x ∨ (f x = uid ∧ f y = uid)) l k →
  filter (λ x, f x ≠ uid) k = filter (λ x, f x ≠ uid) l.
Proof.
  induction 1 as [|x y l k Hxy _ IH]; [done|].
  rewrite !filter_cons, IH.
  destruct Hxy as [->|[Hx Hy]]; [done|].
  rewrite !decide_False by (intros ?; done). done.
Qed.

Lemma has_role_profiles db db' uid t :
  profiles db' = profiles db → has_role db' uid t = has_role db uid t.
Proof. unfold has_role. by intros ->. Qed.

(** What a save leaves in the store. *)
Lemma handleUpdateProfile_effect refreshProfile message_of now1 now2 s st db :
  let db' := (ProfileScreen.handleUpdateProfile refreshProfile message_of
                now1 now2 s st db).1.1.1 in
  consultations db' = consultations db
  ∧ Forall2 (λ p p', p' = p
                     ∨ (Profile.id p = uid s ∧ Profile.id p' = uid s
                        ∧ Profile.user_type p' = Profile.user_type p))
      (profiles db) (profiles db')
  ∧ ∃ ds extra,
      doctors db' = (ds ++ extra)%list
      ∧ Forall2 (λ d d', d' = d ∨ (Doctor.id d = uid s ∧ Doctor.id d' = uid s))
          (doctors db) ds
      ∧ (extra = []
         ∨ ∃ d, extra = [d] ∧ Doctor.id d = uid s
                ∧ has_role db' (uid s) doctor = true).
Proof.
  assert (∀ (A : Type) (R : A → A → Prop) (l : list A),
            Forall2 (λ x y, y = x ∨ R x y) l l) as Hrefl.
  { intros A R l. apply Forall_Forall2_diag, Forall_forall. by left. }
  simpl. unfold ProfileScreen.handleUpdateProfile.
  destruct (profile s) as [p|]; simpl.
  2: { split; [done|]. split; [apply Hrefl|].
       exists (doctors db), []. rewrite app_nil_r. eauto. }
  destruct (update_profiles_rows now1 (uid s) (ProfileScreen.profile_payload st)
              (Profile.id p) db) as (Hd1 & Hc1 & Hp1).
  assert (Forall2 (λ p p', p' = p
                           ∨ (Profile.id p = uid s ∧ Profile.id p' = uid s
                              ∧ Profile.user_type p' = Profile.user_type p))
            (profiles db)
            (profiles (update_profiles now1 (uid s) (ProfileScreen.profile_payload st)
                         (Profile.id p) db).1)) as Hp1'.
  { eapply Forall2_impl; [exact Hp1|].
    intros q q' [->|(? & _ & -> & ?)]; [by left|by right]. }
  clear Hp1.
  destruct (update_profiles _ _ _ _ _) as [db1 [e1|]]; simpl in *.
  { split; [done|]. split; [done|].
    exists (doctors db1), []. rewrite app_nil_r, Hd1. eauto. }
  case_bool_decide as Hdoc; simpl.
  2: { split; [done|]. split; [done|].
       exists (doctors db1), []. rewrite app_nil_r, Hd1. eauto. }
  destruct (maybeSingle _) as [existing|].
  - destruct (update_doctors_rows now2 (uid s)
                (ProfileScreen.doctor_update_payload (ProfileScreen.doctorProfile st))
                (Profile.id p) db1) as (Hp2 & Hc2 & Hd2).
    destruct (update_doctors _ _ _ _ _) as [db2 [e2|]]; simpl in *;
      (split; [congruence|]); (split; [by rewrite Hp2|]);
      exists (doctors db2), []; rewrite app_nil_r, <- Hd1; eauto.
  - destruct (insert_doctor now2 (uid s)
                (ProfileScreen.doctor_insert_payload p (ProfileScreen.doctorProfile st))
                db1) as [db2 e2] eqn:Hins.
    apply insert_doctor_inv in Hins as [[-> [e He]]|(-> & -> & Hid & Hrole & _)]; simpl.
    + subst e2. simpl. split; [done|]. split; [done|].
      exists (doctors db1), []. rewrite app_nil_r, Hd1. eauto.
    + split; [done|]. split; [done|].
      exists (doctors db1), [inserted_doctor now2
                               (ProfileScreen.doctor_insert_payload p
                                  (ProfileScreen.doctorProfile st))].
      split; [done|]. rewrite Hd1. split; [apply Hrefl|]. right.
      eexists. split; [done|]. split; [done|]. done.
Qed.

Lemma Forall2_elem_r {A} (R : A → A → Prop) (l k : list A) y :
  Forall2 R l k → y ∈ k → ∃ x, x ∈ l ∧ R x y.
Proof.
  induction 1 as [|x y' l k Hxy _ IH]; intros Hy; [by apply elem_of_nil in Hy|].
  apply elem_of_cons in Hy as [->|Hy].
  - exists x. split; [by left|done].
  - destruct (IH Hy) as (x' & ? & ?). exists x'. split; [by right|done].
Qed.

Lemma Forall2_fmap_eq {A B} (f : A → B) (l k : list A) :
  Forall2 (λ x y, f y = f x) l k → f <$> k = f <$> l.
Proof.
  induction 1 as [|x y l k Hxy _ IH]; [done|]. by rewrite !fmap_cons, Hxy, IH.
Qed.

Lemma unique_profile (rows : list Profile.Row) p1 p2 :
  NoDup (Profile.id <$> rows) →
  p1 ∈ rows → p2 ∈ rows → Profile.id p1 = Profile.id p2 → p1 = p2.
Proof.
  induction rows as [|p rows IH]; simpl; intros Hnd H1 H2 Hid.
  { by apply elem_of_nil in H1. }
  apply NoDup_cons in Hnd as [Hnotin Hnd].
  apply elem_of_cons in H1 as [->|H1]; apply elem_of_cons in H2 as [->|H2].
  - done.
  - exfalso. apply Hnotin. rewrite Hid. by apply list_elem_of_fmap_2.
  - exfalso. apply Hnotin. rewrite <- Hid. by apply list_elem_of_fmap_2.
  - by apply IH.
Qed.

(** X13: saving the profile screen writes the caller's own rows and
    nothing else. Whatever the form holds and however the call ends, the
    consultations are as before, every profile keeps its identity and its
    role, and the profiles and the doctors rows of everybody else are as
    before. *)
Theorem profile_save_touches_own_rows_only
    refreshProfile message_of now1 now2 s st db :
  let db' := (ProfileScreen.handleUpdateProfile refreshProfile message_of
                now1 now2 s st db).1.1.1 in
  consultations db' = consultations db
  ∧ (λ p, (Profile.id p, Profile.user_type p)) <$> profiles db'
    = (λ p, (Profile.id p, Profile.user_type p)) <$> profiles db
  ∧ filter (λ p, Profile.id p ≠ uid s) (profiles db')
    = filter (λ p, Profile.id p ≠ uid s) (profiles db)
  ∧ filter (λ d, Doctor.id d ≠ uid s) (doctors db')
    = filter (λ d, Doctor.id d ≠ uid s) (doctors db).
Proof.
  destruct (handleUpdateProfile_effect refreshProfile message_of now1 now2 s st db)
    as (Hc & Hp & ds & extra & Hd & Hds & Hextra).
  simpl. split; [done|]. split; [|split].
  - apply Forall2_fmap_eq. eapply Forall2_impl; [exact Hp|].
    intros p p' [->|(Hi & Hi' & Ht)]; [done|]. simpl. congruence.
  - apply filter_others. eapply Forall2_impl; [exact Hp|].
    intros p p' [->|(Hi & Hi' & Ht)]; [by left|by right].
  - rewrite Hd, filter_app, (filter_others Doctor.id (uid s) _ _ Hds).
    destruct Hextra as [->|(d & -> & Hid & _)]; [by rewrite app_nil_r|].
    rewrite filter_cons, decide_False by (intros ?; done).
    by rewrite app_nil_r.
Qed.

(** X14: saving the profile screen keeps the rule that only doctors own
    a doctors row. If identities of profiles are unique and every doctors
    row belongs to a profile whose role is doctor, the same holds after
    the call, however it ends. *)
Theorem profile_save_keeps_doctors_are_doctors
    refreshProfile message_of now1 now2 s st db :
  NoDup (Profile.id <$> profiles db) →
  doctors_are_doctors db →
  doctors_are_doctors
    (ProfileScreen.handleUpdateProfile refreshProfile message_of
       now1 now2 s st db).1.1.1.
Proof.
  intros Hnd Hdd.
  destruct (handleUpdateProfile_effect refreshProfile message_of now1 now2 s st db)
    as (Hc & Hp & ds & extra & Hd & Hds & Hextra).
  simpl in *.
  set (db' := (ProfileScreen.handleUpdateProfile refreshProfile message_of
                 now1 now2 s st db).1.1.1) in *.
  assert (Profile.id <$> profiles db' = Profile.id <$> profiles db) as Hids.
  { apply Forall2_fmap_eq. eapply Forall2_impl; [exact Hp|].
    intros p p' [->|(Hi & Hi' & Ht)]; [done|]. congruence. }
  intros d' p' Hd' Hp' Hid.
  destruct (Forall2_elem_r _ _ _ _ Hp Hp') as (p & Hpin & Hpp').
  assert (Profile.id p = Profile.id p' ∧ Profile.user_type p = Profile.user_type p')
    as [Hpi Hpt].
  { destruct Hpp' as [->|(Hi & Hi' & Ht)]; [done|]. split; congruence. }
  rewrite Hd in Hd'. apply elem_of_app in Hd' as [Hd'|Hd'].
  - destruct (Forall2_elem_r _ _ _ _ Hds Hd') as (d & Hdin & Hdd').
    assert (Doctor.id d = Doctor.id d') as Hdi.
    { destruct Hdd' as [->|(Hi & Hi')]; [done|]. congruence. }
    rewrite <- Hpt. apply (Hdd d p); [done|done|congruence].
  - destruct Hextra as [->|(d & -> & Hdu & Hrole)]; [by apply elem_of_nil in Hd'|].
    apply list_elem_of_singleton in Hd' as ->.
    apply sql_exists_elem in Hrole as (q & Hq).
    apply list_elem_of_filter in Hq as [[Hqi Hqt] Hq].
    rewrite (unique_profile (profiles db') p' q); [done|by rewrite Hids|done|done|].
    congruence.
Qed.

Lemma profile_save_keeps_doctors_are_doctors_witness :
  let db := {| profiles := [Sample.profile_of "P" patient; Sample.profile_of "D1" doctor];
               doctors := []; consultations := [] |} in
  let form := {| ProfileScreen.loading := false; ProfileScreen.saving := false;
                 ProfileScreen.fullName := "Dr One"; ProfileScreen.phone := "";
                 ProfileScreen.doctorProfile :=
                   {| ProfileScreen.specialization := "Cardiology";
                      ProfileScreen.license_number := "L-1";
                      ProfileScreen.is_available := true;
                      ProfileScreen.years_of_experience := 7;
                      ProfileScreen.bio := "" |} |} in
  let db' := (ProfileScreen.handleUpdateProfile (λ _ s, s) (λ _, "refused")
                20 21 Sample.D1 form db).1.1.1 in
  Doctor.id <$> doctors db' = ["D1"] ∧ doctors_are_doctors db'.
Proof.
  split; [reflexivity|].
  apply (profile_save_keeps_doctors_are_doctors (λ _ s, s) (λ _, "refused") 20 21
           Sample.D1).
  - simpl. apply NoDup_cons. split; [|apply NoDup_singleton].
    intros H. by apply list_elem_of_singleton in H.
  - intros d p Hd. by apply elem_of_nil in Hd.
Defined.

Lemma update_profiles_inv now uid u where_id db db' e :
  update_profiles now uid u where_id db = (db', e) →
  (db' = db ∧ is_Some e)
  ∨ (e = None
     ∧ db' = with_profiles db
               ((λ p, if profile_target uid where_id p
                      then updated_profile now u p else p) <$> profiles db)).
Proof.
  unfold update_profiles.
  destruct (forallb (λ p, _ && _) _); simpl; [|intros [= <- <-]; left; eauto].
  destruct (negb (forallb _ _) && _); [intros [= <- <-]; left; eauto|].
  intros [= <- <-]. by right.
Qed.

Lemma select_doctors_spec db where_id :
  select_doctors db where_id = filter (λ d, Doctor.id d = where_id) (doctors db).
Proof.
  unfold select_doctors. f_equal.
  induction (doctors db) as [|d l IH]; [done|].
  rewrite filter_cons_True by done. by rewrite IH.
Qed.

Lemma maybeSingle_Some {A} (rows : list A) x :
  maybeSingle rows = Some x → rows = [x].
Proof. destruct rows as [|y [|z rows]]; simpl; congruence. Qed.

(** The rows with a given identity after an accepted UPDATE that keeps
    identities are the rewritten rows with that identity. *)
Lemma filter_updated_doctors now uid u where_id (l : list Doctor.Row) :
  DoctorUpdate.id u = None →
  filter (λ d, Doctor.id d = where_id)
    ((λ d, if doctor_target uid where_id d then updated_doctor now u d else d) <$> l)
  = (λ d, if doctor_target uid where_id d then updated_doctor now u d else d)
      <$> filter (λ d, Doctor.id d = where_id) l.
Proof.
  intros Hid. induction l as [|d l IH]; [done|].
  rewrite fmap_cons, !filter_cons, IH.
  assert (Doctor.id (if doctor_target uid where_id d then updated_doctor now u d else d)
          = Doctor.id d) as Hsame.
  { destruct (doctor_target _ _ _); [|done]. simpl. by rewrite Hid. }
  destruct (decide (Doctor.id d = where_id)) as [Hd|Hd].
  - rewrite decide_True by congruence. by rewrite fmap_cons.
  - rewrite decide_False by congruence. done.
Qed.

Lemma filter_none {A} (P : A → Prop) `{∀ x, Decision (P x)} (l : list A) :
  (∀ x, x ∈ l → ¬ P x) → filter P l = [].
Proof.
  induction l as [|x l IH]; intros Hno; [done|].
  rewrite filter_cons_False by (apply Hno; by left).
  apply IH. intros y Hy. apply Hno. by right.
Qed.

(** X15: a doctor's form reads back as it was saved. When a session
    whose profile is the caller's own and has role doctor saves the
    profile screen and the success alert is shown, [fetchDoctorProfile]
    for that profile's identity fills the form with the values just
    saved, whether the doctors row was created or rewritten. *)
Theorem saved_doctor_form_reads_back
    refreshProfile message_of now1 now2 s p st db s2 p2 st2 :
  let out := ProfileScreen.handleUpdateProfile refreshProfile message_of
               now1 now2 s st db in
  profile s = Some p →
  Profile.id p = uid s →
  Profile.user_type p = doctor →
  out.2 = [{| title := "Success"; message := "Profile updated successfully" |}] →
  profile s2 = Some p2 →
  Profile.id p2 = Profile.id p →
  ProfileScreen.doctorProfile (ProfileScreen.fetchDoctorProfile out.1.1.1 s2 st2)
  = ProfileScreen.doctorProfile st.
Proof.
  simpl. intros Hp Hpid Hdoc Hok Hp2 Hp2id. revert Hok.
  unfold ProfileScreen.handleUpdateProfile, ProfileScreen.fetchDoctorProfile.
  rewrite Hp, Hp2, Hp2id. simpl.
  destruct (update_profiles _ _ _ _ _) as [db1 [e1|]] eqn:H1; simpl; [done|].
  rewrite bool_decide_eq_true_2 by done.
  destruct (maybeSingle (select_doctors db1 (Profile.id p))) as [d0|] eqn:Hex.
  - apply maybeSingle_Some in Hex. rewrite select_doctors_spec in Hex.
    destruct (update_doctors _ _ _ _ _) as [db2 [e2|]] eqn:H2; simpl; [done|].
    intros _.
    apply update_doctors_inv in H2 as [[_ [? [=]]]|(_ & -> & _)].
    rewrite select_doctors_spec. simpl.
    rewrite filter_updated_doctors by done. rewrite Hex. simpl.
    assert (doctor_target (uid s) (Profile.id p) d0 = true) as ->.
    { assert (d0 ∈ filter (λ d, Doctor.id d = Profile.id p) (doctors db1)) as Hin
        by (rewrite Hex; by left).
      apply list_elem_of_filter in Hin as [Hin _].
      apply doctor_target_spec. split; congruence. }
    simpl. by destruct (ProfileScreen.doctorProfile st).
  - destruct (insert_doctor _ _ _ _) as [db2 [e2|]] eqn:H2; simpl; [done|].
    intros _.
    apply insert_doctor_inv in H2 as [[_ [? [=]]]|(_ & -> & _ & _ & Hfree)].
    rewrite select_doctors_spec. simpl. rewrite filter_app.
    assert (filter (λ d, Doctor.id d = Profile.id p) (doctors db1) = []) as ->.
    { apply filter_none. intros d Hd Hid. apply Hfree. simpl in *.
      rewrite <- Hid. by apply list_elem_of_fmap_2. }
    rewrite filter_cons_True by done. simpl.
    by destruct (ProfileScreen.doctorProfile st).
Qed.

Lemma saved_doctor_form_reads_back_witness :
  let form := {| ProfileScreen.loading := false; ProfileScreen.saving := false;
                 ProfileScreen.fullName := "Dr One"; ProfileScreen.phone := "";
                 ProfileScreen.doctorProfile :=
                   {| ProfileScreen.specialization := "Cardiology";
                      ProfileScreen.license_number := "L-1";
                      ProfileScreen.is_available := false;
                      ProfileScreen.years_of_experience := 7;
                      ProfileScreen.bio := "" |} |} in
  let out := ProfileScreen.handleUpdateProfile (λ _ s, s) (λ _, "refused")
               20 21 Sample.D1 form (Sample.store_of []) in
  Doctor.specialization <$> doctors out.1.1.1 = ["Cardiology"; "General"; "General"]
  ∧ ProfileScreen.doctorProfile
      (ProfileScreen.fetchDoctorProfile out.1.1.1 Sample.D1
         (ProfileScreen.initial Sample.D1))
    = ProfileScreen.doctorProfile form.
Proof.
  split; [reflexivity|].
  apply (saved_doctor_form_reads_back (λ _ s, s) (λ _, "refused") 20 21
           Sample.D1 (Sample.profile_of "D1" doctor) _ (Sample.store_of [])
           Sample.D1 (Sample.profile_of "D1" doctor)); reflexivity.
Defined.

(** X16: name and phone read back as they were saved, an empty phone
    going through null. When a session whose profile is the caller's own
    saves the profile screen and the success alert is shown, every
    profile row of the caller holds the name of the form and its phone,
    null for the empty text, and the screen opened with that row shows
    the name and the phone of the form again. *)
Theorem saved_profile_reads_back
    refreshProfile message_of now1 now2 s p st db q :
  let out := ProfileScreen.handleUpdateProfile refreshProfile message_of
               now1 now2 s st db in
  let reopened := ProfileScreen.initial {| uid := uid s; profile := Some q |} in
  profile s = Some p →
  Profile.id p = uid s →
  out.2 = [{| title := "Success"; message := "Profile updated successfully" |}] →
  q ∈ profiles out.1.1.1 →
  Profile.id q = uid s →
  Profile.full_name q = ProfileScreen.fullName st
  ∧ Profile.phone q
    = (if bool_decide (ProfileScreen.phone st = "") then None
       else Some (ProfileScreen.phone st))
  ∧ Profile.updated_at q = now1
  ∧ ProfileScreen.fullName reopened = ProfileScreen.fullName st
  ∧ ProfileScreen.phone reopened = ProfileScreen.phone st.
Proof.
  simpl. intros Hp Hpid Hok Hq Hqid.
  assert (∃ q0, q = updated_profile now1 (ProfileScreen.profile_payload st) q0)
    as [q0 ->].
  { revert Hok Hq. unfold ProfileScreen.handleUpdateProfile. rewrite Hp. simpl.
    destruct (update_profiles _ _ _ _ _) as [db1 [e1|]] eqn:H1; simpl; [done|].
    apply update_profiles_inv in H1 as [[_ [? [=]]]|(_ & ->)].
    assert (q ∈ profiles
                  (with_profiles db
                     ((λ p0, if profile_target (uid s) (Profile.id p) p0
                             then updated_profile now1
                                    (ProfileScreen.profile_payload st) p0
                             else p0) <$> profiles db)) →
            ∃ q0, q = updated_profile now1 (ProfileScreen.profile_payload st) q0)
      as Hstep.
    { simpl. intros Hin. apply list_elem_of_fmap in Hin as (q0 & -> & _).
      destruct (profile_target (uid s) (Profile.id p) q0) eqn:Ht; [eauto|].
      exfalso. revert Ht. unfold profile_target, users_can_view_own_profile,
        users_can_update_own_profile.
      rewrite !bool_decide_eq_true_2 by congruence. done. }
    case_bool_decide; simpl; [|by intros _].
    destruct (maybeSingle _).
    - destruct (update_doctors_rows now2 (uid s)
                  (ProfileScreen.doctor_update_payload (ProfileScreen.doctorProfile st))
                  (Profile.id p)
                  (with_profiles db
                     ((λ p0, if profile_target (uid s) (Profile.id p) p0
                             then updated_profile now1
                                    (ProfileScreen.profile_payload st) p0
                             else p0) <$> profiles db))) as (Hsame & _).
      destruct (update_doctors _ _ _ _ _) as [db2 [e2|]]; simpl in *; [done|].
      intros _. rewrite Hsame. apply Hstep.
    - destruct (insert_doctor _ _ _ _) as [db2 [e2|]] eqn:H2; simpl; [done|].
      apply insert_doctor_inv in H2 as [[_ [? [=]]]|(_ & -> & _)].
      intros _. apply Hstep. }
  simpl. repeat split; try done.
  by case_bool_decide.
Qed.

Lemma saved_profile_reads_back_witness :
  let form := {| ProfileScreen.loading := false; ProfileScreen.saving := false;
                 ProfileScreen.fullName := "Pat"; ProfileScreen.phone := "";
                 ProfileScreen.doctorProfile :=
                   ProfileScreen.doctorProfile (ProfileScreen.initial Sample.P) |} in
  let out := ProfileScreen.handleUpdateProfile (λ _ s, s) (λ _, "refused")
               20 21 Sample.P form (Sample.store_of []) in
  let q := updated_profile 20 (ProfileScreen.profile_payload form)
             (Sample.profile_of "P" patient) in
  q ∈ profiles out.1.1.1
  ∧ Profile.full_name q = "Pat" ∧ Profile.phone q = None.
Proof.
  assert (updated_profile 20
            (ProfileScreen.profile_payload
               {| ProfileScreen.loading := false; ProfileScreen.saving := false;
                  ProfileScreen.fullName := "Pat"; ProfileScreen.phone := "";
                  ProfileScreen.doctorProfile :=
                    ProfileScreen.doctorProfile (ProfileScreen.initial Sample.P) |})
            (Sample.profile_of "P" patient)
          ∈ profiles
              (ProfileScreen.handleUpdateProfile (λ _ s, s) (λ _, "refused")
                 20 21 Sample.P
                 {| ProfileScreen.loading := false; ProfileScreen.saving := false;
                    ProfileScreen.fullName := "Pat"; ProfileScreen.phone := "";
                    ProfileScreen.doctorProfile :=
                      ProfileScreen.doctorProfile (ProfileScreen.initial Sample.P) |}
                 (Sample.store_of [])).1.1.1) as Hin.
  { vm_compute. by left. }
  split; [exact Hin|].
  destruct (saved_profile_reads_back (λ _ s, s) (λ _, "refused") 20 21
              Sample.P (Sample.profile_of "P" patient) _ (Sample.store_of []) _
              eq_refl eq_refl eq_refl Hin eq_refl) as (Hn & Hph & _).
  split; [exact Hn|exact Hph].
Defined.

(** ** What the three buttons do at the store *)

(** An UPDATE whose new rows pass every check is accepted and rewrites
    exactly its targets. *)
Lemma update_consultations_accepted now uid u cid db :
  (∀ r, r ∈ consultations db → update_target db uid cid r = true →
     update_check db uid (updated_row now u r) = true
     ∧ select_using db uid (updated_row now u r) = true
     ∧ Consultation.id (updated_row now u r) = Consultation.id r
     ∧ fk_update db r (updated_row now u r) = true) →
  update_consultations now uid u cid db
  = (with_consultations db (update_step now uid u cid db <$> consultations db), None).
Proof.
  intros Hall. unfold update_consultations.
  assert (∀ r, In r (filter (λ r, update_target db uid cid r) (consultations db)) →
            r ∈ consultations db ∧ update_target db uid cid r = true) as Hin.
  { intros r Hr. apply list_elem_of_In, list_elem_of_filter in Hr as [Ht Hr].
    split; [done|by apply Is_true_true]. }
  rewrite (proj2 (forallb_forall _ _)).
  2: { intros r Hr. destruct (Hin r Hr) as [Hr' Ht].
       destruct (Hall r Hr' Ht) as (-> & -> & _). done. }
  rewrite (proj2 (forallb_forall
                    (λ r, bool_decide (Consultation.id (updated_row now u r)
                                       = Consultation.id r)) _)).
  2: { intros r Hr. destruct (Hin r Hr) as [Hr' Ht].
       destruct (Hall r Hr' Ht) as (_ & _ & Hid & _). by apply bool_decide_eq_true. }
  rewrite (proj2 (forallb_forall (λ r, fk_update db r (updated_row now u r)) _)).
  2: { intros r Hr. destruct (Hin r Hr) as [Hr' Ht].
       by destruct (Hall r Hr' Ht) as (_ & _ & _ & ->). }
  done.
Qed.

(** A payload that leaves identity, patient and doctor alone passes every
    check on every target. *)
Lemma status_only_update_accepted now uid u cid db :
  ConsultationUpdate.id u = None →
  ConsultationUpdate.patient_id u = None →
  ConsultationUpdate.doctor_id u = None →
  update_consultations now uid u cid db
  = (with_consultations db (update_step now uid u cid db <$> consultations db), None).
Proof.
  intros Hid Hpat Hdoc. apply update_consultations_accepted. intros r Hr Ht.
  assert (Consultation.patient_id (updated_row now u r) = Consultation.patient_id r)
    as Hp by (unfold updated_row; simpl; by rewrite Hpat).
  assert (Consultation.doctor_id (updated_row now u r) = Consultation.doctor_id r)
    as Hd by (unfold updated_row; simpl; by rewrite Hdoc).
  apply update_target_spec in Ht as [_ Hrel].
  split; [apply update_check_spec; by rewrite Hp, Hd|].
  split; [apply select_using_spec; by rewrite Hp, Hd|].
  split; [by apply updated_row_id|].
  unfold fk_update. by rewrite Hp, Hd, !bool_decide_eq_true_2.
Qed.

(** X17: start and complete are never refused. Whoever calls them, on
    whichever identity and store, the store reports no error: start shows
    no alert and complete shows the success alert, also when no row was
    written. The rows written are those with the given identity of which
    the caller is the patient or the registered doctor, whatever their
    status. *)
Theorem start_and_complete_are_never_refused now date s consultationId db st :
  let started :=
    ConsultationsScreen.handleStartConsultation now date s consultationId db st in
  let finished :=
    ConsultationsScreen.handleCompleteConsultation now date s consultationId db st in
  started.2 = []
  ∧ finished.2 = [{| title := "Success"; message := "Consultation completed" |}]
  ∧ consultations started.1.1
    = update_step now (uid s) (ConsultationsScreen.start_payload date)
        consultationId db <$> consultations db
  ∧ consultations finished.1.1
    = update_step now (uid s) (ConsultationsScreen.complete_payload date)
        consultationId db <$> consultations db
  ∧ (∀ r, update_target db (uid s) consultationId r = true
          ↔ Consultation.id r = consultationId ∧ related db (uid s) r).
Proof.
  simpl.
  unfold ConsultationsScreen.handleStartConsultation,
    ConsultationsScreen.handleCompleteConsultation.
  rewrite !status_only_update_accepted by done. simpl.
  repeat (split; [done|]). intros r. apply update_target_spec.
Qed.

(** X18: accept changes nothing on a consultation that has no doctor,
    unless the caller is its patient. When every consultation with the
    given identity is without a doctor and was requested by somebody
    else, the store is after accept what it was, and the handler shows
    the success alert. *)
Theorem accept_on_requests_of_others_changes_nothing now s consultationId db st :
  (∀ r, r ∈ consultations db → Consultation.id r = consultationId →
        Consultation.patient_id r ≠ uid s ∧ Consultation.doctor_id r = None) →
  let out := ConsultationsScreen.handleAcceptConsultation now s consultationId db st in
  out.1.1 = db
  ∧ out.2 = [{| title := "Success"; message := "Consultation accepted" |}].
Proof.
  intros H. simpl. unfold ConsultationsScreen.handleAcceptConsultation.
  rewrite update_consultations_foreign; [done|].
  intros r Hr Hid. destruct (H r Hr Hid) as [? ->]. done.
Qed.

Lemma accept_on_requests_of_others_changes_nothing_witness :
  let db := Sample.store_of [Sample.row "c1" "P" None pending None] in
  let out := ConsultationsScreen.handleAcceptConsultation 20 Sample.D2 "c1" db
               ConsultationsScreen.initial in
  ConsultationsScreen.isDoctor Sample.D2 = true
  ∧ out.1.1 = db
  ∧ out.2 = [{| title := "Success"; message := "Consultation accepted" |}].
Proof.
  split; [reflexivity|].
  apply (accept_on_requests_of_others_changes_nothing 20 Sample.D2 "c1"
           (Sample.store_of [Sample.row "c1" "P" None pending None])
           ConsultationsScreen.initial).
  intros r Hr _. apply list_elem_of_singleton in Hr as ->.
  split; [discriminate|reflexivity].
Defined.

(** X19: an accept that shows the error alert has changed nothing, and
    one that shows the success alert has refreshed the list from the
    store it left. There is no third outcome. *)
Theorem accept_reports_errors_only now s consultationId db st :
  let out := ConsultationsScreen.handleAcceptConsultation now s consultationId db st in
  (out.2 = [{| title := "Error"; message := "Failed to accept consultation" |}]
   ∧ out.1.1 = db ∧ out.1.2 = st)
  ∨ (out.2 = [{| title := "Success"; message := "Consultation accepted" |}]
     ∧ out.1.2 = ConsultationsScreen.fetchConsultations out.1.1 s st).
Proof.
  simpl. unfold ConsultationsScreen.handleAcceptConsultation.
  destruct (update_consultations _ _ _ _ _) as [db' [e|]] eqn:H; simpl; [|by right].
  left. apply update_consultations_inv in H as [[-> _]|([=] & _)]. done.
Qed.
